(** * ResNeXt / SE-ResNeXt architecture assembly (model/model_zoo/resnext.py)

    A shallow embedding of the module tree that [resnext.py] builds and of
    the control flow of its constructors.  The framework's layer classes
    ([nn.Conv2d], [nn.BatchNorm2d], ...) are recorded as layer descriptors
    that keep the arguments the source passes; the tensor arithmetic they
    perform is a parameter of the development (section [Forward]).  The
    framework's own checks of those arguments (a positive group count,
    non-negative widths, an integer class count, ...) are outside the source
    and outside this model: a constructor of the model returns [Ok] when the
    source's own statements raise nothing, so what is proved of a returned
    value holds of everything the program returns, while success of the
    program is stated only at configurations the source itself builds.  The one
    piece of floating-point arithmetic of the source, the bottleneck width
    [D], is evaluated in binary64. *)

From Stdlib Require Import ZArith Lia SpecFloat.
From stdpp Require Import base option list strings gmap pretty.

Local Open Scope string_scope.
Local Open Scope list_scope.
Local Open Scope Z_scope.

(** ** Python values, exceptions, dictionaries and floats *)

Module Py.

(** The argument values that reach the constructors' flags and the entries
    of a keyword-argument dictionary. *)
Inductive pyval : Type :=
| VNone
| VBool (b : bool)
| VInt (n : Z)
| VStr (s : string).

(** [bool(v)], as tested by [if v:]. *)
Definition truthy (v : pyval) : bool :=
  match v with
  | VNone => false
  | VBool b => b
  | VInt n => negb (Z.eqb n 0)
  | VStr s => negb (String.eqb s "")
  end.

(** Exceptions the source can raise, plus those coming out of the external
    collaborators ([torch.load], [load_state_dict], [ImageNetAttr]).  The
    text of the errors raised by the interpreter itself is not modelled. *)
Inductive exn : Type :=
| TypeError
| AssertionError (msg : string)
| KeyError
| OverflowError
| ValueError
| ZeroDivisionError
| External (what : string).

Inductive result (A : Type) : Type :=
| Ok (a : A)
| Raise (e : exn).
Global Arguments Ok {A} a.
Global Arguments Raise {A} e.

Global Instance result_ret : MRet result := fun _ a => Ok a.

Global Instance result_bind : MBind result := fun _ _ k m =>
  match m with
  | Ok a => k a
  | Raise e => Raise e
  end.

(** A [for] loop over [l] that updates an accumulator and may raise. *)
Fixpoint foldlM {A B} (f : A -> B -> result A) (a : A) (l : list B) : result A :=
  match l with
  | [] => Ok a
  | x :: l' => a' ← f a x; foldlM f a' l'
  end.

(** A dictionary with insertion order, as used for [resnext_spec]: the
    order matters for [str(d.keys())]. *)
Definition dict (V : Type) : Type := list (Z * V).

Fixpoint dict_get {V} (d : dict V) (k : Z) : option V :=
  match d with
  | [] => None
  | (k', v) :: d' => if Z.eqb k k' then Some v else dict_get d' k
  end.

(** [k in d] *)
Definition dict_contains {V} (d : dict V) (k : Z) : bool :=
  match dict_get d k with
  | Some _ => true
  | None => false
  end.

Definition dict_keys {V} (d : dict V) : list Z := d.*1.

Fixpoint join (sep : string) (l : list string) : string :=
  match l with
  | [] => ""
  | [s] => s
  | s :: l' => s +:+ sep +:+ join sep l'
  end.

(** [str(d.keys())] for integer keys. *)
Definition str_dict_keys {V} (d : dict V) : string :=
  "dict_keys([" +:+ join ", " (pretty <$> dict_keys d) +:+ "])".

(** Python's [float] is IEEE 754 binary64. *)
Definition prec : Z := 53.

Definition emax : Z := 1024.

(** An operation on integers whose rounded result exceeds the largest float
    raises [OverflowError]. *)
Definition finite_or_overflow (x : spec_float) : result spec_float :=
  match x with
  | S754_infinity _ => Raise OverflowError
  | _ => Ok x
  end.

(** [float(n)] for an [int]: the nearest float, ties to even. *)
Definition float_of_int (n : Z) : result spec_float :=
  finite_or_overflow (binary_normalize prec emax n 0 false).

(** [a / b] for two [int]s (true division): the correctly rounded
    quotient. *)
Definition int_truediv (a b : Z) : result spec_float :=
  if b =? 0 then Raise ZeroDivisionError
  else if a =? 0 then Ok (S754_zero (b <? 0))
  else
    let '(q, e, l) := SFdiv_core_binary prec emax (Z.abs a) 0 (Z.abs b) 0 in
    finite_or_overflow (binary_round_aux prec emax (xorb (a <? 0) (b <? 0)) q e l).

(** [n * x] for an [int] and a [float]: the [int] is converted first. *)
Definition int_mul_float (n : Z) (x : spec_float) : result spec_float :=
  n' ← float_of_int n;
  mret (SFmul prec emax n' x).

(** [int(math.floor(x))] *)
Definition math_floor (x : spec_float) : result Z :=
  match x with
  | S754_zero _ => Ok 0
  | S754_finite s m e => Ok (Z.shiftl (cond_Zopp s (Zpos m)) e)
  | S754_infinity _ => Raise OverflowError
  | S754_nan => Raise ValueError
  end.

End Py.
Import Py.

(** ** Layer descriptors *)

Module nn.

(** State of a normalization layer's scale parameter (gamma) right after
    construction: what the framework's own initializer left there, or zero
    after [nn.init.zeros_]. *)
Inductive weight_init : Type :=
| FrameworkDefault
| Zeros.

Inductive Layer : Type :=
| Conv2d (in_channels out_channels kernel_size stride padding groups : Z)
         (bias : bool)
| BatchNorm2d (num_features : Z) (weight : weight_init)
| ReLU (inplace : bool)
| Sigmoid
| MaxPool2d (kernel_size stride padding : Z)
| Linear (in_features : Z) (out_features : pyval).

(** [nn.init.zeros_(layer.weight)] *)
Definition init_zeros_weight (l : Layer) : Layer :=
  match l with
  | BatchNorm2d n _ => BatchNorm2d n Zeros
  | _ => l
  end.

(** [nn.Module.__init__] applied to the forwarded [kwargs]: the base class
    constructor accepts no keyword argument. *)
Definition Module_init (kwargs : gmap string pyval) : result unit :=
  if decide (kwargs = ∅) then Ok tt else Raise TypeError.

(** [bool(m)] for an attribute that is either [None] or an
    [nn.Sequential] (whose truth value is [len(m) != 0]). *)
Definition module_truthy (m : option (list Layer)) : bool :=
  match m with
  | Some (_ :: _) => true
  | _ => false
  end.

End nn.
Import nn.

(** ** Block *)

Record Block : Type := mkBlock {
  body : list Layer;
  se : option (list Layer);
  downsample : option (list Layer)
}.

(** [int(math.floor(channels * (bottleneck_width / 64)))] *)
Definition compute_D (channels bottleneck_width : Z) : result Z :=
  q ← int_truediv bottleneck_width 64;
  x ← int_mul_float channels q;
  math_floor x.

(** [Block.__init__], called without extra keyword arguments (as every call
    in the source is).  Each layer is recorded with the arguments the source
    passes; the framework's validation of them is not modelled, so [Ok b]
    stands for the block the source assembles when the framework accepts
    every layer. *)
Definition Block_init (in_channels channels cardinality bottleneck_width stride : Z)
    (downsample last_gamma use_se : pyval) : result Block :=
  D ← compute_D channels bottleneck_width;
  let group_width := cardinality * D in
  let body : list Layer := [] in
  let body := body ++ [Conv2d in_channels group_width 1 1 0 1 false] in
  let body := body ++ [BatchNorm2d group_width FrameworkDefault] in
  let body := body ++ [ReLU true] in
  let body := body ++ [Conv2d group_width group_width 3 stride 1 cardinality false] in
  let body := body ++ [BatchNorm2d group_width FrameworkDefault] in
  let body := body ++ [ReLU true] in
  let body := body ++ [Conv2d group_width (channels * 4) 1 1 0 1 false] in
  let tmp_layer := BatchNorm2d (channels * 4) FrameworkDefault in
  let tmp_layer := if truthy last_gamma then init_zeros_weight tmp_layer else tmp_layer in
  let body := body ++ [tmp_layer] in
  let se :=
    if truthy use_se then
      Some [Conv2d (channels * 4) (channels / 4) 1 1 0 1 true;
            ReLU true;
            Conv2d (channels / 4) (channels * 4) 1 1 0 1 true;
            Sigmoid]
    else None in
  let downsample :=
    if truthy downsample then
      Some [Conv2d in_channels (channels * 4) 1 stride 0 1 false;
            BatchNorm2d (channels * 4) FrameworkDefault]
    else None in
  mret {| body := body; se := se; downsample := downsample |}.

(** ** ResNext *)

(** An entry of [self.features]: a stem layer, or a stage (the
    [nn.Sequential] of blocks returned by [_make_layer]). *)
Inductive Feature : Type :=
| Prim (l : Layer)
| Stage (blocks : list Block).

Record ResNext : Type := mkResNext {
  cardinality : Z;
  bottleneck_width : Z;
  features : list Feature;
  output : Layer
}.

(** [ResNext._make_layer]; [cardinality] and [bottleneck_width] are read from
    [self]. *)
Definition _make_layer (cardinality bottleneck_width : Z)
    (in_channels channels num_layers stride : Z) (last_gamma use_se : pyval) :
    result Feature :=
  let layer : list Block := [] in
  b ← Block_init in_channels channels cardinality bottleneck_width
                 stride (VBool true) last_gamma use_se;
  let layer := layer ++ [b] in
  layer ← foldlM (fun layer _ =>
                    b ← Block_init (channels * 4) channels cardinality bottleneck_width
                                   1 (VBool false) last_gamma use_se;
                    mret (layer ++ [b]))
                 layer (seq 0 (Z.to_nat (num_layers - 1)));
  mret (Stage layer).

(** [enumerate(l)] *)
Definition enumerate {A} (l : list A) : list (nat * A) := zip (seq 0 (length l)) l.

(** The variables the [for] loop of [ResNext.__init__] updates. *)
Record loop_state : Type := mkLoop {
  loop_features : list Feature;
  loop_in_channels : Z;
  loop_channels : Z
}.

(** One iteration of [for i, num_layer in enumerate(layers)]. *)
Definition loop_body (cardinality bottleneck_width : Z) (last_gamma use_se : pyval)
    (st : loop_state) (it : nat * Z) : result loop_state :=
  let '(i, num_layer) := it in
  let stride := if (i =? 0)%nat then 1 else 2 in
  stage ← _make_layer cardinality bottleneck_width
                      (loop_in_channels st) (loop_channels st)
                      num_layer stride last_gamma use_se;
  let features := loop_features st ++ [stage] in
  let in_channels :=
    if (i =? 0)%nat then loop_in_channels st * 4 else loop_in_channels st * 2 in
  let channels := loop_channels st * 2 in
  mret {| loop_features := features;
          loop_in_channels := in_channels;
          loop_channels := channels |}.

(** The stem appended before the loop. *)
Definition stem (channels : Z) : list Feature :=
  let features : list Feature := [] in
  let features := features ++ [Prim (Conv2d 3 channels 7 2 3 1 false)] in
  let features := features ++ [Prim (BatchNorm2d channels FrameworkDefault)] in
  let features := features ++ [Prim (ReLU true)] in
  let features := features ++ [Prim (MaxPool2d 3 2 1)] in
  features.

(** [ResNext.__init__].  As for [Block_init], the layers are recorded as
    the source passes them and the framework's validation of [cardinality],
    of the widths and of [classes] is not modelled. *)
Definition ResNext_init (layers : list Z) (cardinality bottleneck_width : Z)
    (classes last_gamma use_se : pyval) (kwargs : gmap string pyval) : result ResNext :=
  _ ← Module_init kwargs;
  let in_channels := 64 in
  let channels := 64 in
  st ← foldlM (loop_body cardinality bottleneck_width last_gamma use_se)
              {| loop_features := stem channels;
                 loop_in_channels := in_channels;
                 loop_channels := channels |}
              (enumerate layers);
  mret {| cardinality := cardinality;
          bottleneck_width := bottleneck_width;
          features := loop_features st;
          output := Linear (loop_in_channels st) classes |}.

(** Does a keyword-argument dictionary repeat a parameter that the call
    already binds (positionally or by keyword)?  Python raises [TypeError]
    then. *)
Definition rebinds (bound : list string) (kwargs : gmap string pyval) : bool :=
  existsb (fun name => bool_decide (is_Some (kwargs !! name))) bound.

(** The call [ResNext(layers, cardinality, bottleneck_width, use_se=use_se)]
    with the remaining [kwargs] forwarded: parameter binding, then
    [__init__]. *)
Definition ResNext_call (layers : list Z) (cardinality bottleneck_width : Z)
    (use_se : pyval) (kwargs : gmap string pyval) : result ResNext :=
  if rebinds ["self"; "layers"; "cardinality"; "bottleneck_width"; "use_se"] kwargs
  then Raise TypeError
  else
    ResNext_init layers cardinality bottleneck_width
      (default (VInt 1000) (kwargs !! "classes"))
      (default (VBool false) (kwargs !! "last_gamma"))
      use_se
      (delete "classes" (delete "last_gamma" kwargs)).

(** ** Specification table and constructors *)

Definition resnext_spec : dict (list Z) :=
  [(50, [3; 4; 6; 3]);
   (101, [3; 4; 23; 3])].

Section Constructors.

(** External collaborators of the [pretrained] branch of [get_resnext]:
    [torch.load], [net.load_state_dict], and the creation of
    [ImageNetAttr] with the three attribute assignments that follow. *)
Variable state_dict : Type.
Variable torch_load : pyval -> result state_dict.
Variable load_state_dict : ResNext -> state_dict -> result ResNext.
Variable attach_ImageNetAttr : ResNext -> result ResNext.

(** [get_resnext], with its parameters already bound. *)
Definition get_resnext (num_layers cardinality bottleneck_width : Z)
    (use_se pretrained : pyval) (kwargs : gmap string pyval) : result ResNext :=
  if negb (dict_contains resnext_spec num_layers) then
    Raise (AssertionError ("Invalid number of layers: " +:+ pretty num_layers +:+
                           ". Options are " +:+ str_dict_keys resnext_spec))
  else
    match dict_get resnext_spec num_layers with
    | None => Raise KeyError
    | Some layers =>
        net ← ResNext_call layers cardinality bottleneck_width use_se kwargs;
        if truthy pretrained then
          sd ← torch_load pretrained;
          net ← load_state_dict net sd;
          attach_ImageNetAttr net
        else mret net
    end.

(** The call [get_resnext(num_layers, cardinality, bottleneck_width)] with
    [kwargs] forwarded, as made by the named constructors. *)
Definition get_resnext_call (num_layers cardinality bottleneck_width : Z)
    (kwargs : gmap string pyval) : result ResNext :=
  if rebinds ["num_layers"; "cardinality"; "bottleneck_width"] kwargs
  then Raise TypeError
  else
    get_resnext num_layers cardinality bottleneck_width
      (default (VBool false) (kwargs !! "use_se"))
      (default VNone (kwargs !! "pretrained"))
      (delete "use_se" (delete "pretrained" kwargs)).

Definition resnext50_32x4d (kwargs : gmap string pyval) : result ResNext :=
  let kwargs := <["use_se" := VBool false]> kwargs in
  get_resnext_call 50 32 4 kwargs.

Definition resnext101_32x4d (kwargs : gmap string pyval) : result ResNext :=
  let kwargs := <["use_se" := VBool false]> kwargs in
  get_resnext_call 101 32 4 kwargs.

Definition resnext101_64x4d (kwargs : gmap string pyval) : result ResNext :=
  let kwargs := <["use_se" := VBool false]> kwargs in
  get_resnext_call 101 64 4 kwargs.

Definition se_resnext50_32x4d (kwargs : gmap string pyval) : result ResNext :=
  let kwargs := <["use_se" := VBool true]> kwargs in
  get_resnext_call 50 32 4 kwargs.

Definition se_resnext101_32x4d (kwargs : gmap string pyval) : result ResNext :=
  let kwargs := <["use_se" := VBool true]> kwargs in
  get_resnext_call 101 32 4 kwargs.

Definition se_resnext101_64x4d (kwargs : gmap string pyval) : result ResNext :=
  let kwargs := <["use_se" := VBool true]> kwargs in
  get_resnext_call 101 64 4 kwargs.

End Constructors.

(** ** Forward pass of a block *)

Section Forward.

(** The framework's tensors and the operations [Block.forward] applies to
    them. *)
Variable Tensor : Type.
Variable layer_forward : Layer -> Tensor -> Tensor.
Variable adaptive_avg_pool2d : Tensor -> Z -> Tensor.
Variable mul add : Tensor -> Tensor -> Tensor.
Variable relu_ : Tensor -> Tensor.

(** [nn.Sequential.forward] *)
Definition Sequential_forward (m : list Layer) (x : Tensor) : Tensor :=
  foldl (fun x l => layer_forward l x) x m.

(** [Block.forward].  The in-place activations inside [body] and [se] act on
    tensors produced by the preceding layer, never on the block's input. *)
Definition Block_forward (self : Block) (x : Tensor) : Tensor :=
  let residual := x in
  let x := Sequential_forward (body self) x in
  let x :=
    if module_truthy (se self) then
      let w := adaptive_avg_pool2d x 1 in
      let w := Sequential_forward (default [] (se self)) w in
      mul x w
    else x in
  let residual :=
    if module_truthy (downsample self) then
      Sequential_forward (default [] (downsample self)) residual
    else residual in
  relu_ (add x residual).

(** The main path applied to an input. *)
Definition main_path (b : Block) (x : Tensor) : Tensor :=
  Sequential_forward (body b) x.

End Forward.

(** ** Observations on the built structure *)

Definition conv_in_channels (l : Layer) : option Z :=
  match l with
  | Conv2d i _ _ _ _ _ _ => Some i
  | _ => None
  end.

Definition conv_out_channels (l : Layer) : option Z :=
  match l with
  | Conv2d _ o _ _ _ _ _ => Some o
  | _ => None
  end.

Definition conv_stride (l : Layer) : option Z :=
  match l with
  | Conv2d _ _ _ s _ _ _ => Some s
  | _ => None
  end.

Definition norm_weight (l : Layer) : option weight_init :=
  match l with
  | BatchNorm2d _ w => Some w
  | _ => None
  end.

(** Channels entering the first convolution of the main path. *)
Definition Block_in_channels (b : Block) : option Z :=
  head (omap conv_in_channels (body b)).

(** Channels leaving the last convolution of the main path. *)
Definition Block_out_channels (b : Block) : option Z :=
  last (omap conv_out_channels (body b)).

(** Stride of the second convolution of the main path (the spatial one): the
    block's stride. *)
Definition Block_stride (b : Block) : option Z :=
  omap conv_stride (body b) !! 1%nat.

(** Scale parameter of the last layer of the main path. *)
Definition Block_last_gamma (b : Block) : option weight_init :=
  last (body b) ≫= norm_weight.

Definition stage_blocks (f : Feature) : option (list Block) :=
  match f with
  | Stage bs => Some bs
  | Prim _ => None
  end.

(** The stages of a network, in order. *)
Definition stages (net : ResNext) : list (list Block) :=
  omap stage_blocks (features net).

(** Output channel count of a stage: that of its last block. *)
Definition stage_out_channels (bs : list Block) : option Z :=
  last bs ≫= Block_out_channels.

(** Input channel count of a stage: that of its first block. *)
Definition stage_in_channels (bs : list Block) : option Z :=
  head bs ≫= Block_in_channels.

(** ** Closed forms *)

(** The running widths at the start of iteration [i] of the loop of
    [ResNext.__init__]. *)
Definition running_in_channels (i : nat) : Z :=
  match i with
  | O => 64
  | S j => 256 * 2 ^ Z.of_nat j
  end.

Definition running_channels (i : nat) : Z := 64 * 2 ^ Z.of_nat i.

Definition stage_stride (i : nat) : Z := if (i =? 0)%nat then 1 else 2.

(** The value of [D] when its evaluation does not raise. *)
Definition D_value (channels bottleneck_width : Z) : Z :=
  match compute_D channels bottleneck_width with
  | Ok d => d
  | Raise _ => 0
  end.

(** The block [Block.__init__] returns once [group_width] is known. *)
Definition Block_of (in_channels channels cardinality stride : Z)
    (downsample last_gamma use_se : bool) (group_width : Z) : Block :=
  {| body :=
       [Conv2d in_channels group_width 1 1 0 1 false;
        BatchNorm2d group_width FrameworkDefault;
        ReLU true;
        Conv2d group_width group_width 3 stride 1 cardinality false;
        BatchNorm2d group_width FrameworkDefault;
        ReLU true;
        Conv2d group_width (channels * 4) 1 1 0 1 false;
        BatchNorm2d (channels * 4) (if last_gamma then Zeros else FrameworkDefault)];
     se :=
       if use_se then
         Some [Conv2d (channels * 4) (channels / 4) 1 1 0 1 true;
               ReLU true;
               Conv2d (channels / 4) (channels * 4) 1 1 0 1 true;
               Sigmoid]
       else None;
     downsample :=
       if downsample then
         Some [Conv2d in_channels (channels * 4) 1 stride 0 1 false;
               BatchNorm2d (channels * 4) FrameworkDefault]
       else None |}.

(** The blocks [_make_layer] returns once [group_width] is known. *)
Definition stage_of (in_channels channels cardinality num_layers stride : Z)
    (last_gamma use_se : bool) (group_width : Z) : list Block :=
  Block_of in_channels channels cardinality stride true last_gamma use_se group_width ::
  replicate (Z.to_nat (num_layers - 1))
            (Block_of (channels * 4) channels cardinality 1 false last_gamma use_se
                      group_width).

(** The blocks of the stage appended by iteration [i] for a block count [n]. *)
Definition stage_blocks_at (cardinality bottleneck_width : Z) (last_gamma use_se : pyval)
    (i : nat) (n : Z) : list Block :=
  stage_of (running_in_channels i) (running_channels i) cardinality n (stage_stride i)
           (truthy last_gamma) (truthy use_se)
           (cardinality * D_value (running_channels i) bottleneck_width).

(** The network [ResNext.__init__] returns when no evaluation of [D]
    raises. *)
Definition ResNext_of (layers : list Z) (cardinality bottleneck_width : Z)
    (classes last_gamma use_se : pyval) : ResNext :=
  {| cardinality := cardinality;
     bottleneck_width := bottleneck_width;
     features :=
       stem 64 ++
       imap (fun i n =>
               Stage (stage_blocks_at cardinality bottleneck_width last_gamma use_se i n))
            layers;
     output := Linear (running_in_channels (length layers)) classes |}.

(** ** Binary64 numbers that carry an exact value *)

(** Number of binary digits of a positive integer. *)
Definition dig (p : positive) : Z := Zpos (digits2_pos p).

(** The 53-digit mantissa of a positive integer of at most 53 digits. *)
Definition canon (v : positive) : positive := Z.to_pos (Zpos v * 2 ^ (53 - dig v)).

(** The binary64 number [(-1)^s * v * 2^k]. *)
Definition float_exact (s : bool) (v : positive) (k : Z) : spec_float :=
  S754_finite s (canon v) (k + dig v - 53).

(** A shift record with nothing shifted out. *)
Definition exact_record (m : Z) : shr_record :=
  {| shr_m := m; shr_r := false; shr_s := false |}.

(** Range on which the binary64 evaluation of [D] is exact. *)
Definition binary64_exact (channels bottleneck_width : Z) : Prop :=
  Z.abs channels < 2 ^ 53 /\
  Z.abs bottleneck_width < 2 ^ 53 /\
  Z.abs (channels * bottleneck_width) < 2 ^ 53.

(** ** Predicates of the specification *)

(** The squeeze-and-excitation gate in the words of the specification: the
    first convolution reduces [output_channels] to [output_channels / 4]. *)
Definition se_reduces_to_quarter_of_output (b : Block) : Prop :=
  exists reduction rest output_channels,
    se b = Some (reduction :: rest) /\
    Block_out_channels b = Some output_channels /\
    conv_in_channels reduction = Some output_channels /\
    conv_out_channels reduction = Some (output_channels / 4).

(** A block changes the channel count or the spatial size. *)
Definition changes_shape (b : Block) : Prop :=
  Block_in_channels b <> Block_out_channels b \/ Block_stride b <> Some 1.

(** The invariant of a stage: its first block has a downsample path and
    changes the shape; every later block has stride 1, keeps the shape and
    has no downsample path. *)
Definition downsample_first_only (blocks : list Block) : Prop :=
  exists first rest,
    blocks = first :: rest /\
    module_truthy (downsample first) = true /\
    Block_in_channels first <> Block_out_channels first /\
    changes_shape first /\
    Forall (fun b => downsample b = None /\
                     Block_stride b = Some 1 /\
                     ~ changes_shape b) rest.

(** Keyword arguments that [ResNext.__init__] declares besides the ones
    [get_resnext] passes itself. *)
Definition accepted_kwargs (kwargs : gmap string pyval) : Prop :=
  dom kwargs ⊆ ({["classes"; "last_gamma"]} : gset string).

(** The configurations the source itself builds, in its named constructors
    and in the defaults of [get_resnext]: 32 or 64 groups, bottleneck width
    4, the default class count, and at most a [last_gamma] entry among the
    keyword arguments. *)
Definition preset_config (cardinality bottleneck_width : Z)
    (kwargs : gmap string pyval) : Prop :=
  (cardinality = 32 \/ cardinality = 64) /\
  bottleneck_width = 4 /\
  dom kwargs ⊆ ({["last_gamma"]} : gset string).

Section NamedConstructorSpec.

Variable state_dict : Type.
Variable torch_load : pyval -> result state_dict.
Variable load_state_dict : ResNext -> state_dict -> result ResNext.
Variable attach_ImageNetAttr : ResNext -> result ResNext.

(** What it means for a named constructor to impose its own [use_se]: a
    [use_se] entry of the caller changes nothing, whether present or not;
    [get_resnext] receives the constructor's flag; and without pretrained
    weights every block of a returned network has the gate exactly when the
    flag is set. *)
Definition forces_use_se (ctor : gmap string pyval -> result ResNext)
    (num_layers cardinality : Z) (flag : bool) : Prop :=
  forall kwargs : gmap string pyval,
    (forall v, ctor (<["use_se" := v]> kwargs) = ctor kwargs) /\
    ctor (delete "use_se" kwargs) = ctor kwargs /\
    ctor kwargs =
      (if rebinds ["num_layers"; "cardinality"; "bottleneck_width"] kwargs
       then Raise TypeError
       else get_resnext state_dict torch_load load_state_dict attach_ImageNetAttr
              num_layers cardinality 4 (VBool flag)
              (default VNone (kwargs !! "pretrained"))
              (delete "use_se" (delete "pretrained" kwargs))) /\
    (forall net,
        truthy (default VNone (kwargs !! "pretrained")) = false ->
        ctor kwargs = Ok net ->
        Forall (Forall (fun b => module_truthy (se b) = flag)) (stages net)).

End NamedConstructorSpec.

(** ** Network forward pass *)

Section NetworkForward.

Variable Tensor : Type.
Variable layer_forward : Layer -> Tensor -> Tensor.
Variable adaptive_avg_pool2d : Tensor -> Z -> Tensor.
Variable squeeze_ : Tensor -> Z -> Tensor.
Variable mul add : Tensor -> Tensor -> Tensor.
Variable relu_ : Tensor -> Tensor.

(** The forward pass of a stage: an [nn.Sequential] of blocks. *)
Definition Stage_forward (blocks : list Block) (x : Tensor) : Tensor :=
  foldl (fun x b =>
           Block_forward Tensor layer_forward adaptive_avg_pool2d mul add relu_ b x)
        x blocks.

(** The forward pass of one entry of [self.features]. *)
Definition Feature_forward (f : Feature) (x : Tensor) : Tensor :=
  match f with
  | Prim l => layer_forward l x
  | Stage blocks => Stage_forward blocks x
  end.

(** [ResNext.forward] *)
Definition ResNext_forward (self : ResNext) (x : Tensor) : Tensor :=
  let x := foldl (fun x f => Feature_forward f x) x (features self) in
  let x := squeeze_ (squeeze_ (adaptive_avg_pool2d x 1) 3) 2 in
  let x := layer_forward (output self) x in
  x.

End NetworkForward.

(** ** Signatures: channel count and accumulated stride *)

(** What a layer descriptor requires of the tensor it is applied to and what
    it produces, as a pair of a channel count and of the product of the
    strides applied so far: a convolution or a normalization takes as many
    channels as it declares. *)
Definition layer_sig (l : Layer) (s : Z * Z) : option (Z * Z) :=
  match l with
  | Conv2d i o _ stride _ _ _ => if s.1 =? i then Some (o, s.2 * stride) else None
  | BatchNorm2d n _ => if s.1 =? n then Some s else None
  | ReLU _ => Some s
  | Sigmoid => Some s
  | MaxPool2d _ stride _ => Some (s.1, s.2 * stride)
  | Linear _ _ => None
  end.

Fixpoint seq_sig (m : list Layer) (s : Z * Z) : option (Z * Z) :=
  match m with
  | [] => Some s
  | l :: m' => layer_sig l s ≫= seq_sig m'
  end.

(** The gate is applied to the pooled output of the main path and multiplies
    it: it has to return as many channels as it receives. *)
Definition gate_fits (b : Block) (channels : Z) : bool :=
  if module_truthy (se b)
  then bool_decide (seq_sig (default [] (se b)) (channels, 1) = Some (channels, 1))
  else true.

(** A block is consistent on an input when its layers chain and the
    residual sum receives two operands of the same signature. *)
Definition Block_sig (b : Block) (s : Z * Z) : option (Z * Z) :=
  main ← seq_sig (body b) s;
  shortcut ← (if module_truthy (downsample b)
              then seq_sig (default [] (downsample b)) s
              else Some s);
  if gate_fits b main.1 && bool_decide (main = shortcut) then Some main else None.

Fixpoint blocks_sig (blocks : list Block) (s : Z * Z) : option (Z * Z) :=
  match blocks with
  | [] => Some s
  | b :: blocks' => Block_sig b s ≫= blocks_sig blocks'
  end.

Definition Feature_sig (f : Feature) (s : Z * Z) : option (Z * Z) :=
  match f with
  | Prim l => layer_sig l s
  | Stage blocks => blocks_sig blocks s
  end.

Fixpoint features_sig (fs : list Feature) (s : Z * Z) : option (Z * Z) :=
  match fs with
  | [] => Some s
  | f :: fs' => Feature_sig f s ≫= features_sig fs'
  end.

(** The features chain, and the classifier takes the channels they
    produce. *)
Definition ResNext_sig (net : ResNext) (s : Z * Z) : option (Z * Z) :=
  out ← features_sig (features net) s;
  match output net with
  | Linear i _ => if out.1 =? i then Some out else None
  | _ => None
  end.

(** Product of the strides of the stem and of the first [n] stages. *)
Definition accumulated_stride (n : nat) : Z := 4 * 2 ^ Z.of_nat (Nat.pred n).

(** ** Further observations *)

(** The grouped convolution of a block: input channels, output channels and
    groups of the second convolution of the main path. *)
Definition Block_grouped_conv (b : Block) : option (Z * Z * Z) :=
  match body b !! 3%nat with
  | Some (Conv2d i o _ _ _ g _) => Some (i, o, g)
  | _ => None
  end.

(** Layers that carry weights of the depth count: convolutions and the
    classifier. *)
Definition is_weighted (l : Layer) : bool :=
  match l with
  | Conv2d _ _ _ _ _ _ _ => true
  | Linear _ _ => true
  | _ => false
  end.

Definition weighted_layers (m : list Layer) : nat := length (filter is_weighted m).

(** Weighted layers met on the way through a feature: the layer itself, or
    the main paths of a stage's blocks. *)
Definition Feature_depth (f : Feature) : nat :=
  match f with
  | Prim l => weighted_layers [l]
  | Stage blocks => sum_list ((fun b => weighted_layers (body b)) <$> blocks)
  end.

(** Depth of a network: weighted layers of the features, then the
    classifier. *)
Definition ResNext_depth (net : ResNext) : nat :=
  (sum_list (Feature_depth <$> features net) + weighted_layers [output net])%nat.

(** Number of blocks [_make_layer] puts in a stage for a block count [n]. *)
Definition stage_length (n : Z) : nat := Z.to_nat (Z.max 1 n).

(** A block with its gate removed. *)
Definition Block_without_se (b : Block) : Block :=
  {| body := body b; se := None; downsample := downsample b |}.

Definition Feature_without_se (f : Feature) : Feature :=
  match f with
  | Prim l => Prim l
  | Stage blocks => Stage (Block_without_se <$> blocks)
  end.

Definition ResNext_without_se (net : ResNext) : ResNext :=
  {| cardinality := cardinality net;
     bottleneck_width := bottleneck_width net;
     features := Feature_without_se <$> features net;
     output := output net |}.

(** A block with the scale of its last normalization reset to what the
    framework's initializer leaves. *)
Definition Block_default_gamma (b : Block) : Block :=
  {| body :=
       match reverse (body b) with
       | BatchNorm2d n _ :: rest => reverse (BatchNorm2d n FrameworkDefault :: rest)
       | _ => body b
       end;
     se := se b;
     downsample := downsample b |}.

Definition Feature_default_gamma (f : Feature) : Feature :=
  match f with
  | Prim l => Prim l
  | Stage blocks => Stage (Block_default_gamma <$> blocks)
  end.

Definition ResNext_default_gamma (net : ResNext) : ResNext :=
  {| cardinality := cardinality net;
     bottleneck_width := bottleneck_width net;
     features := Feature_default_gamma <$> features net;
     output := output net |}.

(** Keyword arguments a named constructor can take without a [TypeError]. *)
Definition constructor_keywords : gset string :=
  {["use_se"; "pretrained"; "classes"; "last_gamma"]}.

(** The six named constructors, for given collaborators. *)
Definition named_constructors (state_dict : Type)
    (torch_load : pyval -> result state_dict)
    (load_state_dict : ResNext -> state_dict -> result ResNext)
    (attach_ImageNetAttr : ResNext -> result ResNext) :
    list (gmap string pyval -> result ResNext) :=
  [resnext50_32x4d state_dict torch_load load_state_dict attach_ImageNetAttr;
   resnext101_32x4d state_dict torch_load load_state_dict attach_ImageNetAttr;
   resnext101_64x4d state_dict torch_load load_state_dict attach_ImageNetAttr;
   se_resnext50_32x4d state_dict torch_load load_state_dict attach_ImageNetAttr;
   se_resnext101_32x4d state_dict torch_load load_state_dict attach_ImageNetAttr;
   se_resnext101_64x4d state_dict torch_load load_state_dict attach_ImageNetAttr].

(** * Properties *)

(** ** Binary64: exact cases of rounding *)

Lemma dig_log2 p : dig p = Z.log2 (Zpos p) + 1.
Proof.
  unfold dig. induction p as [p IH|p IH|]; cbn [digits2_pos]; [| |reflexivity].
  - rewrite Pos2Z.inj_succ, IH. change (Z.log2 (Zpos p~1)) with (Zpos (Pos.size p)).
    destruct p; cbn in *; lia.
  - rewrite Pos2Z.inj_succ, IH. change (Z.log2 (Zpos p~0)) with (Zpos (Pos.size p)).
    destruct p; cbn in *; lia.
Qed.

Lemma dig_pos p : 0 < dig p.
Proof. unfold dig. lia. Qed.

Lemma dig_bounds p : 2 ^ (dig p - 1) <= Zpos p < 2 ^ dig p.
Proof.
  rewrite dig_log2. replace (Z.log2 (Zpos p) + 1 - 1) with (Z.log2 (Zpos p)) by lia.
  apply Z.log2_spec. lia.
Qed.

Lemma dig_le_53 p : Zpos p < 2 ^ 53 -> dig p <= 53.
Proof.
  intros Hp. destruct (Z_le_gt_dec (dig p) 53) as [|Hgt]; [done|].
  pose proof (dig_bounds p) as [Hlo _].
  assert (2 ^ 53 <= 2 ^ (dig p - 1)) by (apply Z.pow_le_mono_r; lia). lia.
Qed.

Lemma dig_mul_pow2 p q n :
  0 <= n -> Zpos q = Zpos p * 2 ^ n -> dig q = dig p + n.
Proof.
  intros Hn Hq. rewrite !dig_log2, Hq, Z.log2_mul_pow2 by lia. lia.
Qed.

Lemma dig_mul_le (v1 v2 : positive) : dig v1 + dig v2 - 1 <= dig (v1 * v2).
Proof.
  pose proof (dig_bounds v1) as [H1 _]. pose proof (dig_bounds v2) as [H2 _].
  pose proof (dig_bounds (v1 * v2)) as [_ H3].
  pose proof (dig_pos v1). pose proof (dig_pos v2).
  assert (Hlo : 2 ^ (dig v1 - 1 + (dig v2 - 1)) <= Zpos (v1 * v2)).
  { rewrite Z.pow_add_r, Pos2Z.inj_mul by lia.
    apply Z.mul_le_mono_nonneg; try lia; apply Z.pow_nonneg; lia. }
  destruct (Z_le_gt_dec (dig v1 + dig v2 - 1) (dig (v1 * v2))) as [|Hgt]; [done|].
  assert (2 ^ dig (v1 * v2) <= 2 ^ (dig v1 - 1 + (dig v2 - 1)))
    by (apply Z.pow_le_mono_r; lia).
  lia.
Qed.

Lemma canon_spec v : dig v <= 53 -> Zpos (canon v) = Zpos v * 2 ^ (53 - dig v).
Proof.
  intros Hv. unfold canon. rewrite Z2Pos.id; [done|].
  pose proof (Z.pow_pos_nonneg 2 (53 - dig v)). lia.
Qed.

Lemma dig_canon v : dig v <= 53 -> dig (canon v) = 53.
Proof.
  intros Hv. rewrite (dig_mul_pow2 v (canon v) (53 - dig v)); [lia|lia|].
  by apply canon_spec.
Qed.

Lemma iter_pos_Pos_iter {A} (f : A -> A) (n : positive) (x : A) :
  SpecFloat.iter_pos f n x = Pos.iter f x n.
Proof.
  revert x. induction n as [n IH|n IH|]; intros x; cbn.
  - by rewrite !IH, !Pos.iter_swap.
  - by rewrite !IH.
  - done.
Qed.

Lemma Pos_iter_xO (p k : positive) : Zpos (Pos.iter xO p k) = Zpos p * 2 ^ Zpos k.
Proof.
  induction k as [|k IH] using Pos.peano_ind.
  - cbn [Pos.iter]. lia.
  - rewrite Pos.iter_succ, Pos2Z.inj_succ, Z.pow_succ_r by lia.
    rewrite Pos2Z.inj_xO, IH. lia.
Qed.

Lemma iter_shr_1_exact (n : positive) :
  forall m : positive,
    Pos.iter shr_1 (exact_record (Zpos m * 2 ^ Zpos n)) n = exact_record (Zpos m).
Proof.
  induction n as [|n IH] using Pos.peano_ind; intros m.
  - rewrite Z.pow_1_r. replace (Zpos m * 2) with (Zpos m~0) by lia. reflexivity.
  - rewrite Pos.iter_succ, Pos2Z.inj_succ, Z.pow_succ_r by lia.
    replace (Zpos m * (2 * 2 ^ Zpos n)) with (Zpos m~0 * 2 ^ Zpos n) by lia.
    rewrite IH. reflexivity.
Qed.

Lemma shr_exact (m : positive) (e n : Z) :
  0 <= n ->
  shr (exact_record (Zpos m * 2 ^ n)) e n = (exact_record (Zpos m), e + n).
Proof.
  intros Hn. destruct n as [|n|n]; [| |lia].
  - cbn [shr]. rewrite Z.mul_1_r, Z.add_0_r. done.
  - cbn [shr]. by rewrite iter_pos_Pos_iter, iter_shr_1_exact.
Qed.

(** A mantissa of 53 significant digits followed by [n] zero bits rounds to
    itself. *)
Lemma binary_round_aux_exact (s : bool) (m : positive) (n e : Z) :
  dig m = 53 ->
  0 <= n ->
  -1074 <= e + n <= 971 ->
  binary_round_aux prec emax s (Zpos m * 2 ^ n) e loc_Exact =
  S754_finite s m (e + n).
Proof.
  intros Hm Hn He.
  assert (Hpos : exists q, Zpos m * 2 ^ n = Zpos q).
  { pose proof (Z.pow_pos_nonneg 2 n). destruct (Zpos m * 2 ^ n) eqn:E; try lia. eauto. }
  destruct Hpos as [q Hq].
  assert (Hdq : dig q = 53 + n) by (rewrite <- Hm; apply dig_mul_pow2; [lia|done]).
  unfold binary_round_aux.
  assert (H1 : shr_fexp prec emax (Zpos m * 2 ^ n) e loc_Exact =
               (exact_record (Zpos m), e + n)).
  { unfold shr_fexp.
    replace (Zdigits2 (Zpos m * 2 ^ n)) with (53 + n) by (by rewrite Hq, <- Hdq).
    replace (fexp prec emax (53 + n + e) - e) with n
      by (unfold fexp, emin, prec, emax; lia).
    apply shr_exact. lia. }
  rewrite H1. cbn [exact_record shr_m loc_of_shr_record round_nearest_even].
  assert (H2 : shr_fexp prec emax (Zpos m) (e + n) loc_Exact =
               (exact_record (Zpos m), e + n)).
  { unfold shr_fexp. change (Zdigits2 (Zpos m)) with (dig m). rewrite Hm.
    replace (fexp prec emax (53 + (e + n)) - (e + n)) with 0
      by (unfold fexp, emin, prec, emax; lia).
    reflexivity. }
  rewrite H2. cbn [exact_record shr_m].
  replace (e + n <=? emax - prec) with true; [done|].
  symmetry. apply Z.leb_le. unfold emax, prec. lia.
Qed.

Lemma binary_round_exact (s : bool) (v : positive) :
  dig v <= 53 ->
  binary_round prec emax s v 0 = float_exact s v 0.
Proof.
  intros Hv. unfold binary_round.
  change (Zpos (digits2_pos v)) with (dig v).
  replace (fexp prec emax (dig v + 0)) with (dig v - 53)
    by (pose proof (dig_pos v); unfold fexp, emin, prec, emax; lia).
  assert (Hal : shl_align v 0 (dig v - 53) = (canon v, dig v - 53)).
  { unfold shl_align. destruct (dig v - 53 - 0) as [|k|k] eqn:Hk; [|lia|].
    - f_equal; [|lia]. apply Pos2Z.inj. rewrite canon_spec by done.
      replace (53 - dig v) with 0 by lia. lia.
    - f_equal. apply Pos2Z.inj. rewrite canon_spec, Pos_iter_xO by done.
      f_equal. f_equal. lia. }
  rewrite Hal.
  replace (Zpos (canon v)) with (Zpos (canon v) * 2 ^ 0) by lia.
  rewrite binary_round_aux_exact.
  - unfold float_exact. f_equal. lia.
  - by apply dig_canon.
  - lia.
  - pose proof (dig_pos v). lia.
Qed.

Lemma float_of_int_exact (z : Z) :
  z <> 0 ->
  Z.abs z < 2 ^ 53 ->
  float_of_int z = Ok (float_exact (z <? 0) (Z.to_pos (Z.abs z)) 0).
Proof.
  intros Hz Hlt. unfold float_of_int.
  destruct z as [|p|p]; [done| |]; cbn [binary_normalize Z.abs Z.to_pos Z.ltb Z.compare];
    rewrite binary_round_exact by (apply dig_le_53; exact Hlt); reflexivity.
Qed.

Lemma int_truediv_64_exact (b : Z) :
  b <> 0 ->
  Z.abs b < 2 ^ 53 ->
  int_truediv b 64 = Ok (float_exact (b <? 0) (Z.to_pos (Z.abs b)) (-6)).
Proof.
  intros Hb Hlt. unfold int_truediv.
  change (64 =? 0) with false. cbn iota.
  destruct (Z.eqb_spec b 0) as [|_]; [done|].
  set (v := Z.to_pos (Z.abs b)).
  assert (Hv : Z.abs b = Zpos v) by (unfold v; rewrite Z2Pos.id; lia).
  assert (Hd : dig v <= 53) by (apply dig_le_53; lia).
  pose proof (dig_pos v) as Hd0.
  rewrite Hv. change (Z.abs 64) with 64. change (64 <? 0) with false.
  rewrite xorb_false_r.
  unfold SFdiv_core_binary.
  change (Zdigits2 (Zpos v)) with (dig v). change (Zdigits2 64) with 7.
  replace (Z.min (fexp prec emax (dig v + 0 - (7 + 0))) (0 - 0)) with (dig v - 60)
    by (unfold fexp, emin, prec, emax; lia).
  replace (0 - 0 - (dig v - 60)) with (60 - dig v) by lia.
  assert (Hsh : match 60 - dig v with
                | 0 => Zpos v
                | Zpos _ => Z.shiftl (Zpos v) (60 - dig v)
                | Zneg _ => 0
                end = (Zpos (canon v) * 2) * 64).
  { destruct (60 - dig v) as [|k|k] eqn:Hk; [lia| |lia].
    rewrite <- Hk, Z.shiftl_mul_pow2, canon_spec by lia.
    replace (60 - dig v) with ((53 - dig v) + 7) by lia.
    rewrite Z.pow_add_r by lia. change (2 ^ 7) with 128. lia. }
  rewrite Hsh.
  pose proof (Z.div_eucl_eq (Zpos (canon v) * 2 * 64) 64 ltac:(lia)) as Heq.
  pose proof (Z.mod_pos_bound (Zpos (canon v) * 2 * 64) 64 ltac:(lia)) as Hmod.
  unfold Z.modulo in Hmod.
  destruct (Z.div_eucl (Zpos (canon v) * 2 * 64) 64) as [q r].
  assert (r = 0) by lia. assert (q = Zpos (canon v) * 2) by lia. subst q r.
  change (new_location 64 0) with loc_Exact.
  change 2 with (2 ^ 1) at 1.
  rewrite binary_round_aux_exact.
  - unfold float_exact. cbn [finite_or_overflow]. do 2 f_equal. lia.
  - by apply dig_canon.
  - lia.
  - lia.
Qed.

Lemma SFmul_exact (s1 s2 : bool) (v1 v2 : positive) (k1 k2 : Z) :
  dig v1 <= 53 ->
  dig v2 <= 53 ->
  dig (v1 * v2) <= 53 ->
  -1000 <= k1 + k2 <= 900 ->
  SFmul prec emax (float_exact s1 v1 k1) (float_exact s2 v2 k2) =
  float_exact (xorb s1 s2) (v1 * v2) (k1 + k2).
Proof.
  intros H1 H2 H12 Hk. unfold float_exact at 1 2. cbn [SFmul].
  pose proof (dig_mul_le v1 v2) as Hle.
  pose proof (dig_pos v1). pose proof (dig_pos v2). pose proof (dig_pos (v1 * v2)).
  set (n := 53 + dig (v1 * v2) - dig v1 - dig v2).
  assert (Hprod : Zpos (canon v1 * canon v2) = Zpos (canon (v1 * v2)) * 2 ^ n).
  { rewrite Pos2Z.inj_mul, !canon_spec by done. rewrite Pos2Z.inj_mul.
    transitivity (Zpos v1 * Zpos v2 * 2 ^ ((53 - dig v1) + (53 - dig v2))).
    { rewrite Z.pow_add_r by lia. ring. }
    replace ((53 - dig v1) + (53 - dig v2)) with ((53 - dig (v1 * v2)) + n) by lia.
    rewrite Z.pow_add_r by lia. ring. }
  rewrite Hprod, binary_round_aux_exact.
  - unfold float_exact. f_equal. lia.
  - by apply dig_canon.
  - lia.
  - lia.
Qed.

Lemma math_floor_exact (s : bool) (v : positive) (k : Z) :
  dig v <= 53 ->
  k <= 0 ->
  math_floor (float_exact s v k) = Ok (cond_Zopp s (Zpos v) / 2 ^ (- k)).
Proof.
  intros Hv Hk. unfold float_exact, math_floor. f_equal.
  pose proof (dig_pos v).
  rewrite <- (Z.shiftr_opp_r _ (k + dig v - 53)), Z.shiftr_div_pow2 by lia.
  assert (Hc : cond_Zopp s (Zpos (canon v)) = cond_Zopp s (Zpos v) * 2 ^ (53 - dig v)).
  { rewrite canon_spec by done. destruct s; cbn [cond_Zopp]; lia. }
  rewrite Hc.
  replace (- (k + dig v - 53)) with (- k + (53 - dig v)) by lia.
  rewrite Z.pow_add_r by lia.
  apply Z.div_mul_cancel_r; apply Z.pow_nonzero; lia.
Qed.

(** On the exact range, [D] is the floor of the rational quotient. *)
Lemma compute_D_exact (channels bottleneck_width : Z) :
  binary64_exact channels bottleneck_width ->
  compute_D channels bottleneck_width = Ok (channels * bottleneck_width / 64).
Proof.
  intros (Hc & Hb & Hcb). unfold compute_D, int_mul_float.
  destruct (Z.eq_dec bottleneck_width 0) as [->|Hb0].
  { rewrite Z.mul_0_r. change (int_truediv 0 64) with (Ok (S754_zero false)).
    cbn [mbind result_bind].
    destruct (Z.eq_dec channels 0) as [->|Hc0]; [reflexivity|].
    by rewrite float_of_int_exact. }
  rewrite int_truediv_64_exact by done. cbn [mbind result_bind].
  destruct (Z.eq_dec channels 0) as [->|Hc0]; [reflexivity|].
  rewrite float_of_int_exact by done. cbn [mbind result_bind mret result_ret].
  set (vc := Z.to_pos (Z.abs channels)).
  set (vb := Z.to_pos (Z.abs bottleneck_width)).
  assert (Hvc : Z.abs channels = Zpos vc) by (unfold vc; rewrite Z2Pos.id; lia).
  assert (Hvb : Z.abs bottleneck_width = Zpos vb) by (unfold vb; rewrite Z2Pos.id; lia).
  assert (Hvcb : Zpos (vc * vb) = Z.abs (channels * bottleneck_width))
    by (rewrite Pos2Z.inj_mul, Z.abs_mul; lia).
  rewrite SFmul_exact, math_floor_exact; try (apply dig_le_53; lia); try lia.
  f_equal. change (2 ^ (- (0 + -6))) with 64. f_equal.
  rewrite Hvcb.
  destruct (Z.ltb_spec channels 0), (Z.ltb_spec bottleneck_width 0);
    cbn [xorb cond_Zopp]; nia.
Qed.

(** The widths of the presets, evaluated. *)
Example compute_D_presets :
  (fun channels => compute_D channels 4) <$> [64; 128; 256; 512] =
  [Ok 4; Ok 8; Ok 16; Ok 32].
Proof. vm_compute. reflexivity. Qed.

(** Beyond the exact range the conversion of [channels] rounds, and [D]
    leaves the floor of the rational quotient; layers of such widths are far
    larger than any memory. *)
Example compute_D_beyond_exact_range :
  compute_D (2 ^ 59 + 64) 1 = Ok (2 ^ 53) /\ (2 ^ 59 + 64) * 1 / 64 = 2 ^ 53 + 1.
Proof. vm_compute. split; reflexivity. Qed.

(** A quotient too large for a float raises. *)
Example compute_D_overflow : compute_D 64 (10 ^ 400) = Raise OverflowError.
Proof. vm_compute. reflexivity. Qed.

(** ** Arithmetic of the widths *)

Lemma running_in_channels_S i :
  running_in_channels (S i) =
  if (i =? 0)%nat then running_in_channels i * 4 else running_in_channels i * 2.
Proof.
  destruct i as [|j]; [reflexivity|].
  cbn [running_in_channels Nat.eqb].
  rewrite Nat2Z.inj_succ, Z.pow_succ_r by lia. lia.
Qed.

Lemma running_channels_S i : running_channels (S i) = running_channels i * 2.
Proof.
  unfold running_channels. rewrite Nat2Z.inj_succ, Z.pow_succ_r by lia. lia.
Qed.

Lemma running_in_channels_lt i : running_in_channels i < running_channels i * 4.
Proof.
  destruct i as [|j]; [reflexivity|].
  unfold running_in_channels, running_channels.
  rewrite Nat2Z.inj_succ, Z.pow_succ_r by lia.
  pose proof (Z.pow_pos_nonneg 2 (Z.of_nat j)). lia.
Qed.

Lemma running_channels_mono i j :
  (i <= j)%nat -> 0 < running_channels i <= running_channels j.
Proof.
  intros Hij. unfold running_channels.
  pose proof (Z.pow_pos_nonneg 2 (Z.of_nat i)).
  assert (2 ^ Z.of_nat i <= 2 ^ Z.of_nat j) by (apply Z.pow_le_mono_r; lia).
  lia.
Qed.

(** ** What the constructors return *)

Lemma Block_init_eq in_channels channels cardinality bottleneck_width stride
    downsample last_gamma use_se :
  Block_init in_channels channels cardinality bottleneck_width stride
             downsample last_gamma use_se =
  D ← compute_D channels bottleneck_width;
  mret (Block_of in_channels channels cardinality stride
                 (truthy downsample) (truthy last_gamma) (truthy use_se)
                 (cardinality * D)).
Proof.
  unfold Block_init, Block_of.
  destruct (compute_D channels bottleneck_width) as [d|e]; [|reflexivity].
  cbn. by destruct (truthy last_gamma).
Qed.

Lemma foldlM_append_const {A B} (x : A) (l0 : list A) (xs : list B) :
  foldlM (fun l _ => Ok (l ++ [x])) l0 xs = Ok (l0 ++ replicate (length xs) x).
Proof.
  revert l0. induction xs as [|y xs IH]; intros l0; cbn.
  - by rewrite app_nil_r.
  - rewrite IH, <- app_assoc. done.
Qed.

Lemma _make_layer_eq cardinality bottleneck_width in_channels channels num_layers
    stride last_gamma use_se :
  _make_layer cardinality bottleneck_width in_channels channels num_layers stride
              last_gamma use_se =
  D ← compute_D channels bottleneck_width;
  mret (Stage (stage_of in_channels channels cardinality num_layers stride
                        (truthy last_gamma) (truthy use_se) (cardinality * D))).
Proof.
  unfold _make_layer. rewrite !Block_init_eq.
  destruct (compute_D channels bottleneck_width) as [d|e]; [|reflexivity].
  cbn [mbind result_bind mret result_ret truthy].
  rewrite foldlM_append_const, length_seq. reflexivity.
Qed.

Lemma compute_D_value channels bottleneck_width d :
  compute_D channels bottleneck_width = Ok d ->
  D_value channels bottleneck_width = d.
Proof. intros H. unfold D_value. by rewrite H. Qed.

Lemma loop_body_eq cardinality bottleneck_width last_gamma use_se st i n :
  loop_body cardinality bottleneck_width last_gamma use_se st (i, n) =
  D ← compute_D (loop_channels st) bottleneck_width;
  mret {| loop_features :=
            loop_features st ++
            [Stage (stage_of (loop_in_channels st) (loop_channels st) cardinality n
                             (stage_stride i) (truthy last_gamma) (truthy use_se)
                             (cardinality * D))];
          loop_in_channels :=
            if (i =? 0)%nat then loop_in_channels st * 4 else loop_in_channels st * 2;
          loop_channels := loop_channels st * 2 |}.
Proof.
  unfold loop_body. rewrite _make_layer_eq.
  by destruct (compute_D (loop_channels st) bottleneck_width).
Qed.

(** The state after the loop has run over [l] from iteration [k]; [D] was
    evaluated at every stage on the way. *)
Lemma loop_from_Ok cardinality bottleneck_width last_gamma use_se (l : list Z) :
  forall (k : nat) (st st' : loop_state),
    loop_in_channels st = running_in_channels k ->
    loop_channels st = running_channels k ->
    foldlM (loop_body cardinality bottleneck_width last_gamma use_se) st
           (zip (seq k (length l)) l) = Ok st' ->
    st' =
    {| loop_features :=
         loop_features st ++
         imap (fun i n =>
                 Stage (stage_blocks_at cardinality bottleneck_width last_gamma use_se
                                        (k + i) n)) l;
       loop_in_channels := running_in_channels (k + length l);
       loop_channels := running_channels (k + length l) |} /\
    (forall i, (i < length l)%nat ->
               compute_D (running_channels (k + i)) bottleneck_width =
               Ok (D_value (running_channels (k + i)) bottleneck_width)).
Proof.
  induction l as [|n l IH]; intros k st st' Hin Hch Hrun.
  - cbn in Hrun. injection Hrun as <-. split; [|cbn; lia].
    cbn. rewrite app_nil_r, Nat.add_0_r, <- Hin, <- Hch. by destruct st.
  - cbn [length seq zip zip_with foldlM] in Hrun.
    rewrite loop_body_eq, Hch in Hrun.
    destruct (compute_D (running_channels k) bottleneck_width) as [d|e] eqn:HD;
      [|discriminate Hrun].
    cbn [mbind result_bind mret result_ret] in Hrun.
    apply IH in Hrun as [Hst HDs].
    + split.
      * rewrite Hst. cbn [loop_features imap length].
        rewrite <- app_assoc. cbn [app].
        rewrite Nat.add_0_r, Nat.add_succ_r.
        f_equal. f_equal. f_equal.
        -- unfold stage_blocks_at.
           by rewrite Hin, (compute_D_value _ _ _ HD).
        -- apply imap_ext. intros i x _. cbn. by rewrite Nat.add_succ_r.
      * intros [|i] Hi.
        -- by rewrite Nat.add_0_r, (compute_D_value _ _ _ HD).
        -- replace (k + S i)%nat with (S k + i)%nat by lia.
           apply HDs. cbn in Hi. lia.
    + cbn [loop_in_channels]. by rewrite Hin, running_in_channels_S.
    + cbn [loop_channels]. by rewrite running_channels_S.
Qed.

(** The loop does not raise when [D] can be evaluated at every stage. *)
Lemma loop_from_success cardinality bottleneck_width last_gamma use_se (l : list Z) :
  forall (k : nat) (st : loop_state),
    loop_channels st = running_channels k ->
    (forall i, (i < length l)%nat ->
               exists d, compute_D (running_channels (k + i)) bottleneck_width = Ok d) ->
    exists st',
      foldlM (loop_body cardinality bottleneck_width last_gamma use_se) st
             (zip (seq k (length l)) l) = Ok st'.
Proof.
  induction l as [|n l IH]; intros k st Hch HD.
  - eexists. reflexivity.
  - cbn [length seq zip zip_with foldlM].
    rewrite loop_body_eq, Hch.
    destruct (HD 0%nat) as [d Hd]; [cbn; lia|].
    rewrite Nat.add_0_r in Hd. rewrite Hd.
    cbn [mbind result_bind mret result_ret].
    apply IH.
    + cbn [loop_channels]. by rewrite running_channels_S.
    + intros i Hi. destruct (HD (S i)) as [d' Hd']; [cbn; lia|].
      exists d'. by replace (S k + i)%nat with (k + S i)%nat by lia.
Qed.

Lemma ResNext_init_Ok layers cardinality bottleneck_width classes last_gamma use_se
    kwargs net :
  ResNext_init layers cardinality bottleneck_width classes last_gamma use_se kwargs =
  Ok net ->
  kwargs = ∅ /\
  net = ResNext_of layers cardinality bottleneck_width classes last_gamma use_se /\
  (forall i, (i < length layers)%nat ->
             compute_D (running_channels i) bottleneck_width =
             Ok (D_value (running_channels i) bottleneck_width)).
Proof.
  unfold ResNext_init, Module_init, enumerate.
  destruct (decide (kwargs = ∅)) as [Hkw|]; [|discriminate].
  cbn [mbind result_bind].
  destruct (foldlM _ _ _) as [st|e] eqn:Hrun; [|discriminate].
  apply loop_from_Ok in Hrun as [Hst HDs]; [|reflexivity..].
  cbn [mret result_ret]. intros [= <-]. split; [exact Hkw|].
  split; [by rewrite Hst|exact HDs].
Qed.

Lemma ResNext_init_success layers cardinality bottleneck_width classes last_gamma
    use_se :
  (forall i, (i < length layers)%nat ->
             binary64_exact (running_channels i) bottleneck_width) ->
  ResNext_init layers cardinality bottleneck_width classes last_gamma use_se ∅ =
  Ok (ResNext_of layers cardinality bottleneck_width classes last_gamma use_se).
Proof.
  intros Hex.
  destruct (loop_from_success cardinality bottleneck_width last_gamma use_se layers 0
              {| loop_features := stem 64;
                 loop_in_channels := 64;
                 loop_channels := 64 |}) as [st Hst]; [reflexivity| |].
  { intros i Hi. eexists. by apply compute_D_exact, Hex. }
  assert (Hinit : exists net,
             ResNext_init layers cardinality bottleneck_width classes last_gamma
                          use_se ∅ = Ok net).
  { unfold ResNext_init, Module_init, enumerate.
    rewrite decide_True by done. cbn [mbind result_bind].
    rewrite Hst. eexists. reflexivity. }
  destruct Hinit as [net Hnet]. rewrite Hnet.
  apply ResNext_init_Ok in Hnet as (_ & -> & _). reflexivity.
Qed.

Lemma ResNext_call_Ok layers cardinality bottleneck_width use_se kwargs net :
  ResNext_call layers cardinality bottleneck_width use_se kwargs = Ok net ->
  net = ResNext_of layers cardinality bottleneck_width
          (default (VInt 1000) (kwargs !! "classes"))
          (default (VBool false) (kwargs !! "last_gamma"))
          use_se.
Proof.
  unfold ResNext_call. destruct (rebinds _ kwargs); [done|].
  intros Hnet. by apply ResNext_init_Ok in Hnet as (_ & -> & _).
Qed.

(** ** Stages of a network *)

Lemma omap_stage_blocks_imap (g : nat -> Z -> list Block) (l : list Z) :
  omap stage_blocks (imap (fun i n => Stage (g i n)) l) = imap g l.
Proof.
  revert g. induction l as [|n l IH]; intros g; [done|].
  cbn. f_equal. apply (IH (g ∘ S)).
Qed.

Lemma stages_ResNext_of layers cardinality bottleneck_width classes last_gamma use_se :
  stages (ResNext_of layers cardinality bottleneck_width classes last_gamma use_se) =
  imap (stage_blocks_at cardinality bottleneck_width last_gamma use_se) layers.
Proof.
  unfold stages, ResNext_of. cbn [features]. rewrite omap_app.
  cbn [stem app omap stage_blocks]. apply omap_stage_blocks_imap.
Qed.

Lemma length_stages_ResNext_of layers cardinality bottleneck_width classes last_gamma
    use_se :
  length (stages (ResNext_of layers cardinality bottleneck_width classes last_gamma
                             use_se)) =
  length layers.
Proof. by rewrite stages_ResNext_of, length_imap. Qed.

Lemma Forall_stages (P : list Block -> Prop) layers cardinality bottleneck_width
    classes last_gamma use_se :
  (forall i n, layers !! i = Some n ->
               P (stage_blocks_at cardinality bottleneck_width last_gamma use_se i n)) ->
  Forall P (stages (ResNext_of layers cardinality bottleneck_width classes
                               last_gamma use_se)).
Proof.
  intros HP. rewrite stages_ResNext_of. apply Forall_lookup.
  intros i bs Hbs. rewrite list_lookup_imap in Hbs.
  destruct (layers !! i) as [n|] eqn:Hn; [|done].
  cbn in Hbs. injection Hbs as <-. by apply HP.
Qed.

Lemma Forall_stage_of (P : Block -> Prop) in_channels channels cardinality num_layers
    stride last_gamma use_se group_width :
  P (Block_of in_channels channels cardinality stride true last_gamma use_se
              group_width) ->
  P (Block_of (channels * 4) channels cardinality 1 false last_gamma use_se
              group_width) ->
  Forall P (stage_of in_channels channels cardinality num_layers stride
                     last_gamma use_se group_width).
Proof.
  intros Hfirst Hrest. apply Forall_cons. split; [exact Hfirst|].
  by apply Forall_replicate.
Qed.

Lemma last_cons_replicate {A} (x y : A) (k : nat) :
  last (x :: replicate k y) = Some (if (k =? 0)%nat then x else y).
Proof.
  destruct k as [|k]; [done|].
  change (x :: replicate (S k) y) with ([x] ++ replicate (S k) y).
  rewrite replicate_S_end, app_assoc, last_snoc. done.
Qed.

Lemma stage_out_channels_at cardinality bottleneck_width last_gamma use_se i n :
  stage_out_channels (stage_blocks_at cardinality bottleneck_width last_gamma use_se i n) =
  Some (running_channels i * 4).
Proof.
  unfold stage_out_channels, stage_blocks_at, stage_of. rewrite last_cons_replicate.
  by destruct (_ =? _)%nat.
Qed.

Lemma fmap_imap {A B C} (f : B -> C) (g : nat -> A -> B) (l : list A) :
  f <$> imap g l = imap (fun i x => f (g i x)) l.
Proof.
  revert g. induction l as [|x l IH]; intros g; [done|].
  cbn. f_equal. apply (IH (g ∘ S)).
Qed.

(** ** The bottleneck block *)

Lemma Block_init_Ok in_channels channels cardinality bottleneck_width stride
    downsample last_gamma use_se b :
  Block_init in_channels channels cardinality bottleneck_width stride
             downsample last_gamma use_se = Ok b ->
  b = Block_of in_channels channels cardinality stride
               (truthy downsample) (truthy last_gamma) (truthy use_se)
               (cardinality * D_value channels bottleneck_width).
Proof.
  rewrite Block_init_eq.
  destruct (compute_D channels bottleneck_width) as [d|e] eqn:HD; [|done].
  cbn. intros [= <-]. by rewrite (compute_D_value _ _ _ HD).
Qed.

(** C6.  The main path of every block that [Block.__init__] returns is: a
    1x1 bias-free convolution to [group_width], normalization, activation, a
    3x3 bias-free convolution at the block's stride with [cardinality]
    groups from [group_width] to [group_width], normalization, activation,
    a 1x1 bias-free convolution to [channels * 4], and a final
    normalization, where [group_width = cardinality * D] for the value [D]
    the source computes; and [D = floor (channels * bottleneck_width / 64)]
    wherever the binary64 evaluation of the quotient is exact. *)
Theorem Block_main_path in_channels channels cardinality bottleneck_width stride
    downsample last_gamma use_se b :
  Block_init in_channels channels cardinality bottleneck_width stride
             downsample last_gamma use_se = Ok b ->
  exists D,
    compute_D channels bottleneck_width = Ok D /\
    (binary64_exact channels bottleneck_width ->
     D = channels * bottleneck_width / 64) /\
    let group_width := cardinality * D in
    let output_channels := channels * 4 in
    body b =
    [Conv2d in_channels group_width 1 1 0 1 false;
     BatchNorm2d group_width FrameworkDefault;
     ReLU true;
     Conv2d group_width group_width 3 stride 1 cardinality false;
     BatchNorm2d group_width FrameworkDefault;
     ReLU true;
     Conv2d group_width output_channels 1 1 0 1 false;
     BatchNorm2d output_channels
                 (if truthy last_gamma then Zeros else FrameworkDefault)].
Proof.
  rewrite Block_init_eq.
  destruct (compute_D channels bottleneck_width) as [d|e] eqn:HD; [|done].
  cbn [mbind result_bind mret result_ret]. intros [= <-].
  exists d. split; [reflexivity|]. split; [|reflexivity].
  intros Hexact. rewrite compute_D_exact in HD by done. by injection HD.
Qed.

Lemma Block_main_path_witness :
  Block_init 64 64 32 4 1 (VBool true) (VBool false) (VBool false) =
  Ok (Block_of 64 64 32 1 true false false 128) /\
  binary64_exact 64 4 /\
  body (Block_of 64 64 32 1 true false false 128) =
  [Conv2d 64 128 1 1 0 1 false;
   BatchNorm2d 128 FrameworkDefault;
   ReLU true;
   Conv2d 128 128 3 1 1 32 false;
   BatchNorm2d 128 FrameworkDefault;
   ReLU true;
   Conv2d 128 256 1 1 0 1 false;
   BatchNorm2d 256 FrameworkDefault].
Proof.
  assert (Hb : Block_init 64 64 32 4 1 (VBool true) (VBool false) (VBool false) =
               Ok (Block_of 64 64 32 1 true false false 128))
    by (vm_compute; reflexivity).
  assert (Hexact : binary64_exact 64 4)
    by (unfold binary64_exact; repeat split; reflexivity).
  split; [exact Hb|]. split; [exact Hexact|].
  destruct (Block_main_path 64 64 32 4 1 (VBool true) (VBool false) (VBool false) _ Hb)
    as (D & _ & HD & Hbody).
  rewrite (HD Hexact) in Hbody. exact Hbody.
Defined.

(** C1, as stated, fails on the first block of a 50-layer SE network: its
    reduction convolution maps 256 channels to 16, not to 256 / 4 = 64. *)
Lemma se_reduction_counterexample :
  exists b,
    Block_init 64 64 32 4 1 (VBool true) (VBool false) (VBool true) = Ok b /\
    ~ se_reduces_to_quarter_of_output b.
Proof.
  eexists. split; [vm_compute; reflexivity|].
  intros (reduction & rest & oc & Hse & Hout & _ & Hred).
  cbn in Hse, Hout. injection Hse as <- <-. injection Hout as <-.
  cbn in Hred. discriminate Hred.
Qed.

Section BlockForward.

Variable Tensor : Type.
Variable layer_forward : Layer -> Tensor -> Tensor.
Variable adaptive_avg_pool2d : Tensor -> Z -> Tensor.
Variable mul add : Tensor -> Tensor -> Tensor.
Variable relu_ : Tensor -> Tensor.

Local Abbreviation seq_forward := (Sequential_forward Tensor layer_forward).
Local Abbreviation forward :=
  (Block_forward Tensor layer_forward adaptive_avg_pool2d mul add relu_).
Local Abbreviation main := (main_path Tensor layer_forward).

(** C1 (amended).  With [use_se] enabled the gate is: global average
    reduction of the main path's output, a 1x1 convolution from
    [channels * 4] to [floor (channels / 4)], an activation, a 1x1
    convolution back to [channels * 4], and a sigmoid; its result multiplies
    the main path's output elementwise.  When 4 divides [channels] the
    reduced width is one sixteenth of the output width. *)
Theorem se_gate in_channels channels cardinality bottleneck_width stride
    downsample last_gamma use_se b (x : Tensor) :
  Block_init in_channels channels cardinality bottleneck_width stride
             downsample last_gamma use_se = Ok b ->
  truthy use_se = true ->
  let output_channels := channels * 4 in
  let reduce := Conv2d output_channels (channels / 4) 1 1 0 1 true in
  let expand := Conv2d (channels / 4) output_channels 1 1 0 1 true in
  let y := main b x in
  let gate :=
    layer_forward Sigmoid
      (layer_forward expand
         (layer_forward (ReLU true)
            (layer_forward reduce (adaptive_avg_pool2d y 1)))) in
  se b = Some [reduce; ReLU true; expand; Sigmoid] /\
  Block_out_channels b = Some output_channels /\
  (channels mod 4 = 0 -> (channels / 4) * 16 = output_channels) /\
  exists shortcut, forward b x = relu_ (add (mul y gate) shortcut).
Proof.
  intros Hb Hse oc reduce expand y gate.
  apply Block_init_Ok in Hb. rewrite Hse in Hb. subst b.
  split; [reflexivity|]. split; [reflexivity|]. split.
  - intros Hmod. unfold oc. pose proof (Z.div_mod channels 4). lia.
  - eexists. reflexivity.
Qed.

(** C8.  The output of a block is the activation of the elementwise sum of
    the main path (gated when [use_se] is enabled) and the shortcut: the
    input itself without a downsample path, otherwise a 1x1 bias-free
    convolution at the block's stride to [channels * 4] followed by a
    normalization, applied to the block's input.  The main path ends in a
    normalization, so no activation precedes the sum. *)
Theorem Block_forward_residual in_channels channels cardinality bottleneck_width
    stride downsample last_gamma use_se b (x : Tensor) :
  Block_init in_channels channels cardinality bottleneck_width stride
             downsample last_gamma use_se = Ok b ->
  let y := main b x in
  let gated :=
    if truthy use_se
    then mul y (seq_forward (default [] (se b)) (adaptive_avg_pool2d y 1))
    else y in
  let shortcut :=
    if truthy downsample
    then layer_forward (BatchNorm2d (channels * 4) FrameworkDefault)
           (layer_forward (Conv2d in_channels (channels * 4) 1 stride 0 1 false) x)
    else x in
  forward b x = relu_ (add gated shortcut) /\
  exists l, last (body b) = Some l /\ is_Some (norm_weight l).
Proof.
  intros Hb y gated shortcut.
  apply Block_init_Ok in Hb. subst b. split.
  - unfold Block_forward, gated, shortcut, y, main_path, Block_of.
    destruct (truthy use_se), (truthy downsample); reflexivity.
  - eexists. split; [reflexivity|]. cbn. eauto.
Qed.

End BlockForward.

Lemma se_gate_witness :
  Block_init 64 64 32 4 1 (VBool true) (VBool false) (VBool true) =
  Ok (Block_of 64 64 32 1 true false true 128) /\
  truthy (VBool true) = true /\
  se (Block_of 64 64 32 1 true false true 128) =
  Some [Conv2d 256 16 1 1 0 1 true; ReLU true; Conv2d 16 256 1 1 0 1 true; Sigmoid].
Proof.
  assert (H : Block_init 64 64 32 4 1 (VBool true) (VBool false) (VBool true) =
              Ok (Block_of 64 64 32 1 true false true 128))
    by (vm_compute; reflexivity).
  split; [exact H|]. split; [reflexivity|].
  exact (proj1 (se_gate Z (fun l x => match l with ReLU _ => Z.max 0 x | _ => x end)
                        (fun x _ => x) Z.mul Z.add (Z.max 0)
                        64 64 32 4 1 (VBool true) (VBool false) (VBool true) _ 5
                        H eq_refl)).
Defined.

Lemma Block_forward_residual_witness :
  Block_init 256 64 32 4 1 (VBool false) (VBool false) (VBool false) =
  Ok (Block_of 256 64 32 1 false false false 128) /\
  Block_forward Z (fun l x => match l with ReLU _ => Z.max 0 x | _ => x end)
                (fun x _ => x) Z.mul Z.add (Z.max 0)
                (Block_of 256 64 32 1 false false false 128) (-5) =
  0.
Proof.
  assert (H : Block_init 256 64 32 4 1 (VBool false) (VBool false) (VBool false) =
              Ok (Block_of 256 64 32 1 false false false 128))
    by (vm_compute; reflexivity).
  split; [exact H|].
  exact (proj1 (Block_forward_residual Z
                  (fun l x => match l with ReLU _ => Z.max 0 x | _ => x end)
                  (fun x _ => x) Z.mul Z.add (Z.max 0)
                  256 64 32 4 1 (VBool false) (VBool false) (VBool false) _ (-5) H)).
Defined.

(** ** The network *)

Lemma features_ResNext_of_stage layers cardinality bottleneck_width classes last_gamma
    use_se i n :
  layers !! i = Some n ->
  features (ResNext_of layers cardinality bottleneck_width classes last_gamma use_se)
    !! (4 + i)%nat =
  Some (Stage (stage_blocks_at cardinality bottleneck_width last_gamma use_se i n)).
Proof.
  intros Hn. unfold ResNext_of. cbn [features].
  rewrite lookup_app_r by (cbn; lia). cbn [stem app length].
  replace (4 + i - 4)%nat with i by lia.
  by rewrite list_lookup_imap, Hn.
Qed.

Lemma _make_layer_at cardinality bottleneck_width last_gamma use_se i n :
  compute_D (running_channels i) bottleneck_width =
  Ok (D_value (running_channels i) bottleneck_width) ->
  _make_layer cardinality bottleneck_width (running_in_channels i) (running_channels i)
              n (stage_stride i) last_gamma use_se =
  Ok (Stage (stage_blocks_at cardinality bottleneck_width last_gamma use_se i n)).
Proof. intros HD. rewrite _make_layer_eq, HD. reflexivity. Qed.

(** C2.  For the 50-layer preset, whose block counts are [3; 4; 6; 3], the
    stages output 256, 512, 1024 and 2048 channels; the running input width
    is 64 before stage 0, is multiplied by 4 by stage 0 and by 2 by every
    later stage, and the base width doubles after every stage. *)
Theorem channel_progression_50 cardinality bottleneck_width classes last_gamma use_se
    kwargs net :
  ResNext_init [3; 4; 6; 3] cardinality bottleneck_width classes last_gamma use_se
               kwargs = Ok net ->
  dict_get resnext_spec 50 = Some [3; 4; 6; 3] /\
  stage_out_channels <$> stages net = [Some 256; Some 512; Some 1024; Some 2048] /\
  stage_in_channels <$> stages net = [Some 64; Some 256; Some 512; Some 1024] /\
  output net = Linear 2048 classes /\
  (forall st i n st',
      loop_body cardinality bottleneck_width last_gamma use_se st (i, n) = Ok st' ->
      loop_in_channels st' = loop_in_channels st * (if (i =? 0)%nat then 4 else 2) /\
      loop_channels st' = loop_channels st * 2) /\
  (forall i n,
      [3; 4; 6; 3] !! i = Some n ->
      exists stage,
        _make_layer cardinality bottleneck_width
                    (running_in_channels i) (64 * 2 ^ Z.of_nat i) n
                    (stage_stride i) last_gamma use_se = Ok stage /\
        features net !! (4 + i)%nat = Some stage).
Proof.
  intros Hnet. apply ResNext_init_Ok in Hnet as (_ & -> & HD).
  split; [reflexivity|].
  split.
  { rewrite stages_ResNext_of, fmap_imap. cbn [imap compose].
    by rewrite !stage_out_channels_at. }
  split; [reflexivity|]. split; [reflexivity|]. split.
  - intros st i n st'. rewrite loop_body_eq.
    destruct (compute_D _ _); [|done]. cbn. intros [= <-]. cbn.
    by destruct (i =? 0)%nat.
  - intros i n Hn. eexists. split.
    + apply _make_layer_at, HD. apply lookup_lt_Some in Hn. exact Hn.
    + by apply features_ResNext_of_stage.
Qed.

Lemma channel_progression_50_witness :
  ResNext_init [3; 4; 6; 3] 32 4 (VInt 1000) (VBool false) (VBool false) ∅ =
  Ok (ResNext_of [3; 4; 6; 3] 32 4 (VInt 1000) (VBool false) (VBool false)) /\
  stage_out_channels <$>
    stages (ResNext_of [3; 4; 6; 3] 32 4 (VInt 1000) (VBool false) (VBool false)) =
  [Some 256; Some 512; Some 1024; Some 2048].
Proof.
  assert (H : ResNext_init [3; 4; 6; 3] 32 4 (VInt 1000) (VBool false) (VBool false) ∅ =
              Ok (ResNext_of [3; 4; 6; 3] 32 4 (VInt 1000) (VBool false) (VBool false)))
    by (vm_compute; reflexivity).
  split; [exact H|].
  exact (proj1 (proj2 (channel_progression_50 _ _ _ _ _ _ _ H))).
Defined.

(** C4.  In every stage the builder emits, exactly the first block has a
    downsample path, and that block's input and output channel counts differ;
    every later block of the stage has stride 1, equal input and output
    channel counts, and no downsample path. *)
Theorem downsample_only_in_first_block layers cardinality bottleneck_width classes
    last_gamma use_se kwargs net :
  ResNext_init layers cardinality bottleneck_width classes last_gamma use_se kwargs =
  Ok net ->
  length (stages net) = length layers /\
  Forall downsample_first_only (stages net).
Proof.
  intros Hnet. apply ResNext_init_Ok in Hnet as (_ & -> & _).
  split; [apply length_stages_ResNext_of|].
  apply Forall_stages. intros i n _.
  eexists _, _. split; [reflexivity|].
  assert (Hne : Some (running_in_channels i) <> Some (running_channels i * 4)).
  { pose proof (running_in_channels_lt i). intros [= Heq]. lia. }
  split; [reflexivity|]. split; [exact Hne|]. split; [by left|].
  apply Forall_replicate. split; [reflexivity|]. split; [reflexivity|].
  intros [Hshape | Hstride]; [by apply Hshape | by apply Hstride].
Qed.

Lemma downsample_only_in_first_block_witness :
  ResNext_init [3; 4; 23; 3] 64 4 (VInt 1000) (VBool false) (VBool true) ∅ =
  Ok (ResNext_of [3; 4; 23; 3] 64 4 (VInt 1000) (VBool false) (VBool true)) /\
  Forall downsample_first_only
         (stages (ResNext_of [3; 4; 23; 3] 64 4 (VInt 1000) (VBool false) (VBool true))).
Proof.
  assert (H : ResNext_init [3; 4; 23; 3] 64 4 (VInt 1000) (VBool false) (VBool true) ∅ =
              Ok (ResNext_of [3; 4; 23; 3] 64 4 (VInt 1000) (VBool false) (VBool true)))
    by (vm_compute; reflexivity).
  split; [exact H|].
  exact (proj2 (downsample_only_in_first_block _ _ _ _ _ _ _ _ H)).
Defined.

(** C5.  The features start with, in this order, a 7x7 stride-2 bias-free
    convolution from 3 to 64 channels, a normalization, an activation and a
    3x3 stride-2 max pooling; the stage built from entry [i] of the block
    counts follows at position [4 + i], with stride 1 when [i = 0] and
    stride 2 otherwise. *)
Theorem stem_order_and_stage_strides layers cardinality bottleneck_width classes
    last_gamma use_se kwargs net :
  ResNext_init layers cardinality bottleneck_width classes last_gamma use_se kwargs =
  Ok net ->
  take 4 (features net) =
  [Prim (Conv2d 3 64 7 2 3 1 false);
   Prim (BatchNorm2d 64 FrameworkDefault);
   Prim (ReLU true);
   Prim (MaxPool2d 3 2 1)] /\
  forall (i : nat) (n : Z),
    layers !! i = Some n ->
    let stride := if (i =? 0)%nat then 1 else 2 in
    (exists stage,
        _make_layer cardinality bottleneck_width
                    (running_in_channels i) (running_channels i) n stride
                    last_gamma use_se = Ok stage /\
        features net !! (4 + i)%nat = Some stage) /\
    exists first rest,
      stages net !! i = Some (first :: rest) /\
      Block_stride first = Some stride.
Proof.
  intros Hnet. apply ResNext_init_Ok in Hnet as (_ & -> & HD).
  split; [reflexivity|].
  intros i n Hn stride. split.
  - eexists. split.
    + apply _make_layer_at, HD. apply lookup_lt_Some in Hn. exact Hn.
    + by apply features_ResNext_of_stage.
  - eexists _, _. split.
    + rewrite stages_ResNext_of, list_lookup_imap, Hn. reflexivity.
    + reflexivity.
Qed.

Lemma stem_order_and_stage_strides_witness :
  ResNext_init [3; 4; 23; 3] 64 4 (VInt 1000) (VBool false) (VBool true) ∅ =
  Ok (ResNext_of [3; 4; 23; 3] 64 4 (VInt 1000) (VBool false) (VBool true)) /\
  [3; 4; 23; 3] !! 1%nat = Some 4 /\
  exists first rest,
    stages (ResNext_of [3; 4; 23; 3] 64 4 (VInt 1000) (VBool false) (VBool true))
      !! 1%nat = Some (first :: rest) /\
    Block_stride first = Some 2.
Proof.
  assert (H : ResNext_init [3; 4; 23; 3] 64 4 (VInt 1000) (VBool false) (VBool true) ∅ =
              Ok (ResNext_of [3; 4; 23; 3] 64 4 (VInt 1000) (VBool false) (VBool true)))
    by (vm_compute; reflexivity).
  split; [exact H|]. split; [reflexivity|].
  exact (proj2 (proj2 (stem_order_and_stage_strides _ _ _ _ _ _ _ _ H) 1%nat 4 eq_refl)).
Defined.

(** C7.  In a network built with a true [last_gamma], the scale parameter of
    the last normalization of every block is zero at construction; with a
    false [last_gamma] (also when the argument is omitted) it is what the
    framework's initializer left there. *)
Theorem last_gamma_zero_init layers cardinality bottleneck_width use_se
    (kwargs : gmap string pyval) net :
  ResNext_call layers cardinality bottleneck_width use_se kwargs = Ok net ->
  let last_gamma := default (VBool false) (kwargs !! "last_gamma") in
  length (stages net) = length layers /\
  Forall (Forall (fun b =>
            Block_last_gamma b =
            Some (if truthy last_gamma then Zeros else FrameworkDefault)))
         (stages net).
Proof.
  intros Hnet last_gamma. apply ResNext_call_Ok in Hnet. subst net.
  split; [apply length_stages_ResNext_of|].
  apply Forall_stages. intros i n _.
  apply Forall_stage_of; reflexivity.
Qed.

Lemma last_gamma_zero_init_witness :
  ResNext_call [3; 4; 6; 3] 32 4 (VBool false) {["last_gamma" := VBool true]} =
  Ok (ResNext_of [3; 4; 6; 3] 32 4 (VInt 1000) (VBool true) (VBool false)) /\
  Forall (Forall (fun b => Block_last_gamma b = Some Zeros))
         (stages (ResNext_of [3; 4; 6; 3] 32 4 (VInt 1000) (VBool true) (VBool false))).
Proof.
  assert (H : ResNext_call [3; 4; 6; 3] 32 4 (VBool false)
                           {["last_gamma" := VBool true]} =
              Ok (ResNext_of [3; 4; 6; 3] 32 4 (VInt 1000) (VBool true) (VBool false)))
    by (vm_compute; reflexivity).
  split; [exact H|].
  exact (proj2 (last_gamma_zero_init _ _ _ _ _ _ H)).
Defined.

(** ** Depth presets and named constructors *)

Lemma accepted_kwargs_lookup kwargs k :
  accepted_kwargs kwargs -> k <> "classes" -> k <> "last_gamma" -> kwargs !! k = None.
Proof.
  intros Hacc Hc Hl. apply not_elem_of_dom. intros Hk. apply Hacc in Hk.
  rewrite elem_of_union, !elem_of_singleton in Hk. tauto.
Qed.

Lemma ResNext_call_accepted layers cardinality bottleneck_width use_se kwargs :
  accepted_kwargs kwargs ->
  ResNext_call layers cardinality bottleneck_width use_se kwargs =
  ResNext_init layers cardinality bottleneck_width
    (default (VInt 1000) (kwargs !! "classes"))
    (default (VBool false) (kwargs !! "last_gamma"))
    use_se ∅.
Proof.
  intros Hacc. unfold ResNext_call, rebinds. cbn [existsb].
  rewrite !(accepted_kwargs_lookup kwargs) by done.
  rewrite !bool_decide_eq_false_2 by (intros [? [=]]).
  cbn [orb]. f_equal.
  apply map_eq. intros k. rewrite lookup_empty, !lookup_delete.
  repeat case_decide; try done.
  by apply accepted_kwargs_lookup.
Qed.

Lemma preset_widths_exact (layers : list Z) bottleneck_width i :
  length layers = 4%nat ->
  0 < bottleneck_width < 2 ^ 44 ->
  (i < length layers)%nat ->
  binary64_exact (running_channels i) bottleneck_width.
Proof.
  intros Hlen Hbw Hi.
  pose proof (running_channels_mono i 3 ltac:(lia)) as Hmono.
  change (running_channels 3) with 512 in Hmono.
  unfold binary64_exact. rewrite !Z.abs_eq by nia.
  change (2 ^ 53) with (512 * 2 ^ 44). change (2 ^ 44) with 17592186044416 in *.
  nia.
Qed.

Lemma resnext_spec_presets num_layers layers :
  dict_get resnext_spec num_layers = Some layers ->
  (num_layers = 50 \/ num_layers = 101) /\ length layers = 4%nat.
Proof.
  unfold resnext_spec. cbn [dict_get].
  destruct (Z.eqb_spec num_layers 50); [intros [= <-]; auto|].
  destruct (Z.eqb_spec num_layers 101); [intros [= <-]; auto|].
  discriminate.
Qed.

Section ConstructorProperties.

Variable state_dict : Type.
Variable torch_load : pyval -> result state_dict.
Variable load_state_dict : ResNext -> state_dict -> result ResNext.
Variable attach_ImageNetAttr : ResNext -> result ResNext.

Local Abbreviation get_resnext' :=
  (get_resnext state_dict torch_load load_state_dict attach_ImageNetAttr).
Local Abbreviation get_resnext_call' :=
  (get_resnext_call state_dict torch_load load_state_dict attach_ImageNetAttr).

Lemma get_resnext_known num_layers layers cardinality bottleneck_width use_se
    pretrained kwargs :
  dict_get resnext_spec num_layers = Some layers ->
  truthy pretrained = false ->
  get_resnext' num_layers cardinality bottleneck_width use_se pretrained kwargs =
  ResNext_call layers cardinality bottleneck_width use_se kwargs.
Proof.
  intros Hl Hp. unfold get_resnext, dict_contains. rewrite Hl, Hp. cbn [negb].
  by destruct (ResNext_call _ _ _ _ _).
Qed.

(** An exception of the weight loading leaves [get_resnext] through the
    same exception: no network is returned. *)
Lemma get_resnext_load_failure num_layers layers cardinality bottleneck_width use_se
    pretrained kwargs net sd e :
  dict_get resnext_spec num_layers = Some layers ->
  ResNext_call layers cardinality bottleneck_width use_se kwargs = Ok net ->
  truthy pretrained = true ->
  torch_load pretrained = Ok sd ->
  load_state_dict net sd = Raise e ->
  get_resnext' num_layers cardinality bottleneck_width use_se pretrained kwargs =
  Raise e.
Proof.
  intros Hl Hnet Hp Hsd He. unfold get_resnext, dict_contains.
  rewrite Hl, Hnet. cbn [negb mbind result_bind]. rewrite Hp, Hsd.
  cbn [mbind result_bind]. by rewrite He.
Qed.

(** C3.  A depth outside the preset table makes [get_resnext] fail at once
    with an assertion error whose message names the depth and lists the
    options 50 and 101.  For a depth of the table, without pretrained
    weights, every network that [get_resnext] returns has as many stages as
    the preset has block counts; and at the configurations the source
    itself builds (32 or 64 groups of width 4, the default class count)
    [get_resnext] does return such a network. *)
Theorem get_resnext_depth_preset num_layers cardinality bottleneck_width use_se
    pretrained kwargs :
  (num_layers <> 50 ->
   num_layers <> 101 ->
   get_resnext' num_layers cardinality bottleneck_width use_se pretrained kwargs =
   Raise (AssertionError ("Invalid number of layers: " +:+ pretty num_layers +:+
                          ". Options are dict_keys([50, 101])"))) /\
  (forall layers net,
     dict_get resnext_spec num_layers = Some layers ->
     truthy pretrained = false ->
     get_resnext' num_layers cardinality bottleneck_width use_se pretrained kwargs =
     Ok net ->
     length (stages net) = length layers) /\
  (num_layers = 50 \/ num_layers = 101 ->
   truthy pretrained = false ->
   preset_config cardinality bottleneck_width kwargs ->
   exists layers net,
     dict_get resnext_spec num_layers = Some layers /\
     get_resnext' num_layers cardinality bottleneck_width use_se pretrained kwargs =
     Ok net /\
     length (stages net) = length layers).
Proof.
  split; [|split].
  - intros H50 H101. unfold get_resnext, dict_contains, resnext_spec.
    cbn [dict_get].
    destruct (Z.eqb_spec num_layers 50); [done|].
    destruct (Z.eqb_spec num_layers 101); [done|].
    cbn [negb]. do 3 f_equal.
  - intros layers net Hl Hp Hnet.
    rewrite (get_resnext_known _ layers) in Hnet by done.
    apply ResNext_call_Ok in Hnet. subst net.
    apply length_stages_ResNext_of.
  - intros Hn Hp (_ & -> & Hdom).
    assert (Hl : exists layers, dict_get resnext_spec num_layers = Some layers).
    { destruct Hn as [-> | ->]; eexists; reflexivity. }
    destruct Hl as [layers Hl].
    assert (Hacc : accepted_kwargs kwargs).
    { unfold accepted_kwargs. clear -Hdom. set_solver. }
    eexists layers, _.
    split; [exact Hl|]. split.
    + rewrite (get_resnext_known _ layers) by done.
      rewrite ResNext_call_accepted by done.
      apply ResNext_init_success. intros i Hi.
      apply resnext_spec_presets in Hl as [_ Hlen].
      apply (preset_widths_exact layers); [done| |done]. cbn. lia.
    + apply length_stages_ResNext_of.
Qed.

Lemma get_resnext_call_forced num_layers cardinality (flag : bool)
    (kwargs : gmap string pyval) :
  get_resnext_call' num_layers cardinality 4 (<["use_se" := VBool flag]> kwargs) =
  (if rebinds ["num_layers"; "cardinality"; "bottleneck_width"] kwargs
   then Raise TypeError
   else get_resnext' num_layers cardinality 4 (VBool flag)
          (default VNone (kwargs !! "pretrained"))
          (delete "use_se" (delete "pretrained" kwargs))).
Proof.
  unfold get_resnext_call, rebinds. cbn [existsb].
  rewrite !lookup_insert_ne by done. rewrite lookup_insert_eq.
  rewrite lookup_insert_ne by done. cbn [default].
  rewrite (delete_delete _ "use_se" "pretrained"), delete_insert_eq.
  rewrite (delete_delete _ "pretrained" "use_se"). done.
Qed.

Lemma get_resnext_blocks_se num_layers cardinality bottleneck_width use_se
    pretrained kwargs net :
  truthy pretrained = false ->
  get_resnext' num_layers cardinality bottleneck_width use_se pretrained kwargs =
  Ok net ->
  Forall (Forall (fun b => module_truthy (se b) = truthy use_se)) (stages net).
Proof.
  intros Hp Hnet.
  destruct (dict_get resnext_spec num_layers) as [layers|] eqn:Hl.
  - rewrite get_resnext_known with (layers := layers) in Hnet by done.
    apply ResNext_call_Ok in Hnet. subst net.
    apply Forall_stages. intros i n _.
    apply Forall_stage_of; cbn; by destruct (truthy use_se).
  - unfold get_resnext, dict_contains in Hnet. by rewrite Hl in Hnet.
Qed.

Lemma forces_use_se_intro ctor num_layers cardinality flag :
  (forall kwargs,
      ctor kwargs =
      get_resnext_call' num_layers cardinality 4 (<["use_se" := VBool flag]> kwargs)) ->
  forces_use_se state_dict torch_load load_state_dict attach_ImageNetAttr
                ctor num_layers cardinality flag.
Proof.
  intros Hctor kwargs.
  split; [|split; [|split]].
  - intros v. by rewrite !Hctor, insert_insert_eq.
  - by rewrite !Hctor, insert_delete_eq.
  - by rewrite Hctor, get_resnext_call_forced.
  - intros net Hp. rewrite Hctor, get_resnext_call_forced.
    destruct (rebinds _ kwargs); [done|].
    intros Hnet. by apply get_resnext_blocks_se in Hnet.
Qed.

Local Abbreviation forces' :=
  (forces_use_se state_dict torch_load load_state_dict attach_ImageNetAttr).

(** C10.  Each named constructor replaces whatever [use_se] the caller put
    in the keyword arguments: the three plain constructors always pass
    [use_se = False] to [get_resnext] and the three SE constructors always
    pass [use_se = True]; the caller's entry raises no error and has no
    effect on the result. *)
Theorem named_constructors_force_use_se :
  forces'
    (resnext50_32x4d state_dict torch_load load_state_dict attach_ImageNetAttr)
    50 32 false /\
  forces'
    (resnext101_32x4d state_dict torch_load load_state_dict attach_ImageNetAttr)
    101 32 false /\
  forces'
    (resnext101_64x4d state_dict torch_load load_state_dict attach_ImageNetAttr)
    101 64 false /\
  forces'
    (se_resnext50_32x4d state_dict torch_load load_state_dict attach_ImageNetAttr)
    50 32 true /\
  forces'
    (se_resnext101_32x4d state_dict torch_load load_state_dict attach_ImageNetAttr)
    101 32 true /\
  forces'
    (se_resnext101_64x4d state_dict torch_load load_state_dict attach_ImageNetAttr)
    101 64 true.
Proof.
  repeat match goal with |- _ /\ _ => split end;
    apply forces_use_se_intro; reflexivity.
Qed.

End ConstructorProperties.

Lemma get_resnext_depth_preset_witness :
  (34 <> 50 /\ 34 <> 101 /\
   get_resnext unit (fun _ => Ok tt) (fun net _ => Ok net) (fun net => Ok net)
               34 32 4 (VBool false) VNone ∅ =
   Raise (AssertionError
            "Invalid number of layers: 34. Options are dict_keys([50, 101])")) /\
  (dict_get resnext_spec 50 = Some [3; 4; 6; 3] /\ truthy VNone = false /\
   get_resnext unit (fun _ => Ok tt) (fun net _ => Ok net) (fun net => Ok net)
               50 32 4 (VBool false) VNone ∅ =
   Ok (ResNext_of [3; 4; 6; 3] 32 4 (VInt 1000) (VBool false) (VBool false)) /\
   length (stages (ResNext_of [3; 4; 6; 3] 32 4 (VInt 1000) (VBool false)
                              (VBool false))) =
   length [3; 4; 6; 3]) /\
  ((50 = 50 \/ 50 = 101) /\ truthy VNone = false /\ preset_config 32 4 ∅ /\
   exists layers net,
     dict_get resnext_spec 50 = Some layers /\
     get_resnext unit (fun _ => Ok tt) (fun net _ => Ok net) (fun net => Ok net)
                 50 32 4 (VBool false) VNone ∅ = Ok net /\
     length (stages net) = length layers).
Proof.
  assert (H50 : 34 <> 50) by lia.
  assert (H101 : 34 <> 101) by lia.
  assert (Hnet :
    get_resnext unit (fun _ => Ok tt) (fun net _ => Ok net) (fun net => Ok net)
                50 32 4 (VBool false) VNone ∅ =
    Ok (ResNext_of [3; 4; 6; 3] 32 4 (VInt 1000) (VBool false) (VBool false)))
    by (vm_compute; reflexivity).
  assert (Hdom : preset_config 32 4 ∅).
  { unfold preset_config. rewrite dom_empty_L.
    split; [by left|]. split; [reflexivity|]. apply empty_subseteq. }
  split; [|split].
  - split; [exact H50|]. split; [exact H101|].
    exact (proj1 (get_resnext_depth_preset unit (fun _ => Ok tt) (fun net _ => Ok net)
                    (fun net => Ok net) 34 32 4 (VBool false) VNone ∅) H50 H101).
  - split; [reflexivity|]. split; [reflexivity|]. split; [exact Hnet|].
    exact (proj1 (proj2 (get_resnext_depth_preset unit (fun _ => Ok tt)
                           (fun net _ => Ok net) (fun net => Ok net)
                           50 32 4 (VBool false) VNone ∅))
                 _ _ eq_refl eq_refl Hnet).
  - split; [by left|]. split; [reflexivity|]. split; [exact Hdom|].
    exact (proj2 (proj2 (get_resnext_depth_preset unit (fun _ => Ok tt)
                           (fun net _ => Ok net) (fun net => Ok net)
                           50 32 4 (VBool false) VNone ∅))
                 (or_introl eq_refl) eq_refl Hdom).
Defined.

Lemma named_constructors_force_use_se_witness :
  truthy (default VNone (({["use_se" := VBool true]} : gmap string pyval) !! "pretrained")) =
  false /\
  resnext50_32x4d unit (fun _ => Ok tt) (fun net _ => Ok net) (fun net => Ok net)
                  {["use_se" := VBool true]} =
  Ok (ResNext_of [3; 4; 6; 3] 32 4 (VInt 1000) (VBool false) (VBool false)) /\
  Forall (Forall (fun b => module_truthy (se b) = false))
         (stages (ResNext_of [3; 4; 6; 3] 32 4 (VInt 1000) (VBool false) (VBool false))).
Proof.
  assert (Hp : truthy (default VNone
                 (({["use_se" := VBool true]} : gmap string pyval) !! "pretrained")) =
               false) by reflexivity.
  assert (Hnet : resnext50_32x4d unit (fun _ => Ok tt) (fun net _ => Ok net)
                                 (fun net => Ok net) {["use_se" := VBool true]} =
                 Ok (ResNext_of [3; 4; 6; 3] 32 4 (VInt 1000) (VBool false)
                                (VBool false)))
    by (vm_compute; reflexivity).
  split; [exact Hp|]. split; [exact Hnet|].
  exact (proj2 (proj2 (proj2
           (proj1 (named_constructors_force_use_se unit (fun _ => Ok tt)
                     (fun net _ => Ok net) (fun net => Ok net))
                  {["use_se" := VBool true]})))
           _ Hp Hnet).
Defined.

(** * Further properties of the construction *)

(** ** Sizes of the stages *)

Lemma length_stage_of in_channels channels cardinality num_layers stride last_gamma
    use_se group_width :
  length (stage_of in_channels channels cardinality num_layers stride last_gamma
                   use_se group_width) =
  stage_length num_layers.
Proof.
  unfold stage_of, stage_length. cbn [length]. rewrite length_replicate. lia.
Qed.

(** X1.  [_make_layer] always builds the first block: a stage has
    [max 1 num_layers] blocks, one even for a zero or negative count. *)
Theorem _make_layer_length cardinality bottleneck_width in_channels channels num_layers
    stride last_gamma use_se stage :
  _make_layer cardinality bottleneck_width in_channels channels num_layers stride
              last_gamma use_se = Ok stage ->
  exists blocks,
    stage = Stage blocks /\
    length blocks = Z.to_nat (Z.max 1 num_layers) /\
    (num_layers <= 1 -> length blocks = 1%nat).
Proof.
  rewrite _make_layer_eq.
  destruct (compute_D channels bottleneck_width) as [d|e]; [|discriminate].
  cbn [mbind result_bind mret result_ret]. intros [= <-].
  eexists. split; [reflexivity|]. rewrite length_stage_of. unfold stage_length.
  split; [reflexivity|lia].
Qed.

Lemma _make_layer_length_witness :
  _make_layer 32 4 64 64 0 1 (VBool false) (VBool false) =
  Ok (Stage [Block_of 64 64 32 1 true false false 128]) /\
  exists blocks,
    Stage [Block_of 64 64 32 1 true false false 128] = Stage blocks /\
    length blocks = Z.to_nat (Z.max 1 0) /\
    (0 <= 1 -> length blocks = 1%nat).
Proof.
  assert (H : _make_layer 32 4 64 64 0 1 (VBool false) (VBool false) =
              Ok (Stage [Block_of 64 64 32 1 true false false 128]))
    by (vm_compute; reflexivity).
  split; [exact H|].
  exact (_make_layer_length _ _ _ _ _ _ _ _ _ H).
Defined.

Lemma imap_const_ext {A B} (f : nat -> A -> B) (g : A -> B) (l : list A) :
  (forall i x, f i x = g x) -> imap f l = g <$> l.
Proof.
  intros Hfg. rewrite <- imap_const. apply imap_ext. intros i x _. apply Hfg.
Qed.

(** X2.  The stages of a network hold [max 1 n] blocks for each entry [n] of
    the block counts, in order. *)
Theorem stage_lengths layers cardinality bottleneck_width classes last_gamma use_se
    kwargs net :
  ResNext_init layers cardinality bottleneck_width classes last_gamma use_se kwargs =
  Ok net ->
  length <$> stages net = (fun n => Z.to_nat (Z.max 1 n)) <$> layers /\
  length (features net) = (4 + length layers)%nat.
Proof.
  intros Hnet. apply ResNext_init_Ok in Hnet as (_ & -> & _). split.
  - rewrite stages_ResNext_of, fmap_imap.
    apply imap_const_ext. intros i n. apply length_stage_of.
  - unfold ResNext_of. cbn [features]. rewrite length_app, length_imap. reflexivity.
Qed.

Lemma stage_lengths_witness :
  ResNext_init [3; 0; -2; 23] 32 4 (VInt 10) (VBool false) (VBool false) ∅ =
  Ok (ResNext_of [3; 0; -2; 23] 32 4 (VInt 10) (VBool false) (VBool false)) /\
  length <$> stages (ResNext_of [3; 0; -2; 23] 32 4 (VInt 10) (VBool false) (VBool false)) =
  [3; 1; 1; 23]%nat.
Proof.
  assert (H : ResNext_init [3; 0; -2; 23] 32 4 (VInt 10) (VBool false) (VBool false) ∅ =
              Ok (ResNext_of [3; 0; -2; 23] 32 4 (VInt 10) (VBool false) (VBool false)))
    by (vm_compute; reflexivity).
  split; [exact H|].
  exact (proj1 (stage_lengths _ _ _ _ _ _ _ _ H)).
Defined.

(** ** Consistency of channels and strides *)

(** Evaluate a chain of layers on a symbolic signature. *)
Ltac chain_sig :=
  repeat (progress (cbn -[Z.mul Z.div Z.eqb]; rewrite ?Z.eqb_refl)).

Lemma seq_sig_body in_channels channels cardinality stride downsample last_gamma use_se
    group_width f :
  seq_sig (body (Block_of in_channels channels cardinality stride downsample last_gamma
                          use_se group_width))
          (in_channels, f) =
  Some (channels * 4, f * stride).
Proof.
  chain_sig. f_equal. f_equal. lia.
Qed.

Lemma gate_fits_Block_of in_channels channels cardinality stride downsample last_gamma
    use_se group_width :
  gate_fits (Block_of in_channels channels cardinality stride downsample last_gamma
                      use_se group_width)
            (channels * 4) = true.
Proof.
  unfold gate_fits. destruct use_se; [|reflexivity].
  chain_sig. apply bool_decide_eq_true_2. repeat f_equal; lia.
Qed.

Lemma Block_sig_Block_of in_channels channels cardinality stride downsample last_gamma
    use_se group_width f :
  downsample = true \/ (in_channels = channels * 4 /\ stride = 1) ->
  Block_sig (Block_of in_channels channels cardinality stride downsample last_gamma
                      use_se group_width)
            (in_channels, f) =
  Some (channels * 4, f * stride).
Proof.
  intros Hshape. unfold Block_sig. rewrite seq_sig_body.
  cbn [mbind option_bind fst]. rewrite gate_fits_Block_of.
  destruct downsample.
  - chain_sig. rewrite bool_decide_eq_true_2; [done|]. repeat f_equal; lia.
  - destruct Hshape as [|[-> ->]]; [done|]. chain_sig.
    rewrite bool_decide_eq_true_2; [|repeat f_equal; lia].
    repeat f_equal; lia.
Qed.

(** X3.  A block is consistent on its declared input exactly when it has a
    downsample path or leaves channel count and resolution alone; the
    constructor builds the other blocks all the same.  A consistent block
    maps [in_channels] channels to [channels * 4] and multiplies the
    accumulated stride by [stride]. *)
Theorem Block_sig_consistent in_channels channels cardinality bottleneck_width stride
    downsample last_gamma use_se b :
  Block_init in_channels channels cardinality bottleneck_width stride
             downsample last_gamma use_se = Ok b ->
  (truthy downsample = true \/ (in_channels = channels * 4 /\ stride = 1) ->
   forall f, Block_sig b (in_channels, f) = Some (channels * 4, f * stride)) /\
  (truthy downsample = false ->
   in_channels <> channels * 4 \/ stride <> 1 ->
   Block_sig b (in_channels, 1) = None).
Proof.
  intros Hb. apply Block_init_Ok in Hb. subst b. split.
  - intros Hshape f. by apply Block_sig_Block_of.
  - intros Hds Hshape. unfold Block_sig. rewrite seq_sig_body, Hds.
    cbn [mbind option_bind fst]. rewrite gate_fits_Block_of. chain_sig.
    rewrite bool_decide_eq_false_2; [done|].
    intros [= H1 H2]. destruct Hshape; lia.
Qed.

Lemma Block_sig_consistent_witness :
  Block_init 64 64 32 4 1 (VBool false) (VBool false) (VBool true) =
  Ok (Block_of 64 64 32 1 false false true 128) /\
  truthy (VBool false) = false /\
  (64 <> 64 * 4 \/ 1 <> 1) /\
  Block_sig (Block_of 64 64 32 1 false false true 128) (64, 1) = None.
Proof.
  assert (H : Block_init 64 64 32 4 1 (VBool false) (VBool false) (VBool true) =
              Ok (Block_of 64 64 32 1 false false true 128))
    by (vm_compute; reflexivity).
  assert (Hne : 64 <> 64 * 4 \/ 1 <> 1) by (left; lia).
  split; [exact H|]. split; [reflexivity|]. split; [exact Hne|].
  exact (proj2 (Block_sig_consistent _ _ _ _ _ _ _ _ _ H) eq_refl Hne).
Defined.

Lemma blocks_sig_replicate (b : Block) (s : Z * Z) (k : nat) :
  Block_sig b s = Some s -> blocks_sig (replicate k b) s = Some s.
Proof.
  intros Hb. induction k as [|k IH]; [reflexivity|].
  cbn [replicate blocks_sig]. rewrite Hb. exact IH.
Qed.

Lemma blocks_sig_stage_of in_channels channels cardinality num_layers stride last_gamma
    use_se group_width f :
  blocks_sig (stage_of in_channels channels cardinality num_layers stride last_gamma
                       use_se group_width)
             (in_channels, f) =
  Some (channels * 4, f * stride).
Proof.
  unfold stage_of. cbn [blocks_sig]. rewrite Block_sig_Block_of by (by left).
  cbn [mbind option_bind]. apply blocks_sig_replicate.
  rewrite Block_sig_Block_of by (by right). by rewrite Z.mul_1_r.
Qed.

Lemma blocks_sig_stage_blocks_at cardinality bottleneck_width last_gamma use_se i n f :
  blocks_sig (stage_blocks_at cardinality bottleneck_width last_gamma use_se i n)
             (running_in_channels i, f) =
  Some (running_channels i * 4, f * stage_stride i).
Proof. apply blocks_sig_stage_of. Qed.

Lemma running_in_channels_next i : running_in_channels (S i) = running_channels i * 4.
Proof. unfold running_in_channels, running_channels. lia. Qed.

Lemma accumulated_stride_S i :
  accumulated_stride (S i) = accumulated_stride i * stage_stride i.
Proof.
  unfold accumulated_stride, stage_stride. destruct i as [|j]; [reflexivity|].
  cbn [Nat.pred Nat.eqb]. rewrite Nat2Z.inj_succ, Z.pow_succ_r by lia. lia.
Qed.

Lemma features_sig_app fs1 fs2 s :
  features_sig (fs1 ++ fs2) s = features_sig fs1 s ≫= features_sig fs2.
Proof.
  revert s. induction fs1 as [|f fs1 IH]; intros s; [reflexivity|].
  cbn [app features_sig]. destruct (Feature_sig f s) as [s'|]; [|reflexivity].
  cbn [mbind option_bind]. apply IH.
Qed.

Lemma features_sig_stages cardinality bottleneck_width last_gamma use_se (l : list Z) :
  forall k : nat,
    features_sig
      (imap (fun i n =>
               Stage (stage_blocks_at cardinality bottleneck_width last_gamma use_se
                                      (k + i) n)) l)
      (running_in_channels k, accumulated_stride k) =
    Some (running_in_channels (k + length l), accumulated_stride (k + length l)).
Proof.
  induction l as [|n l IH]; intros k.
  - cbn. by rewrite Nat.add_0_r.
  - cbn [imap features_sig Feature_sig length]. rewrite Nat.add_0_r.
    rewrite blocks_sig_stage_blocks_at.
    rewrite <- running_in_channels_next, <- accumulated_stride_S.
    cbn [mbind option_bind].
    replace (k + S (length l))%nat with (S k + length l)%nat by lia.
    rewrite <- (IH (S k)). f_equal.
    apply imap_ext. intros i x _. cbn. by rewrite Nat.add_succ_r.
Qed.

(** X4.  Every network the constructor returns is consistent from a
    3-channel input to the classifier: all layers chain, every residual sum
    adds two tensors of the same channel count and accumulated stride, and
    the classifier takes the channels of the last stage.  The features
    divide the resolution by 4 in the stem and by 2 in every stage after the
    first: by 32 for the four stages of the presets. *)
Theorem ResNext_sig_consistent layers cardinality bottleneck_width classes last_gamma
    use_se kwargs net :
  ResNext_init layers cardinality bottleneck_width classes last_gamma use_se kwargs =
  Ok net ->
  ResNext_sig net (3, 1) =
  Some (running_in_channels (length layers),
        4 * 2 ^ Z.of_nat (Nat.pred (length layers))) /\
  (length layers = 4%nat -> ResNext_sig net (3, 1) = Some (2048, 32)).
Proof.
  intros Hnet. apply ResNext_init_Ok in Hnet as (_ & -> & _).
  assert (Hsig : ResNext_sig
                   (ResNext_of layers cardinality bottleneck_width classes last_gamma
                               use_se) (3, 1) =
                 Some (running_in_channels (length layers),
                       accumulated_stride (length layers))).
  { unfold ResNext_sig, ResNext_of. cbn [features output].
    rewrite features_sig_app.
    change (features_sig (stem 64) (3, 1))
      with (Some (running_in_channels 0, accumulated_stride 0)).
    cbn [mbind option_bind].
    rewrite (features_sig_stages _ _ _ _ layers 0). cbn [mbind option_bind fst].
    by rewrite Z.eqb_refl. }
  split; [exact Hsig|].
  intros Hlen. rewrite Hsig, Hlen. reflexivity.
Qed.

Lemma ResNext_sig_consistent_witness :
  ResNext_init [3; 4; 6; 3] 32 4 (VInt 1000) (VBool false) (VBool true) ∅ =
  Ok (ResNext_of [3; 4; 6; 3] 32 4 (VInt 1000) (VBool false) (VBool true)) /\
  ResNext_sig (ResNext_of [3; 4; 6; 3] 32 4 (VInt 1000) (VBool false) (VBool true))
              (3, 1) =
  Some (2048, 32).
Proof.
  assert (H : ResNext_init [3; 4; 6; 3] 32 4 (VInt 1000) (VBool false) (VBool true) ∅ =
              Ok (ResNext_of [3; 4; 6; 3] 32 4 (VInt 1000) (VBool false) (VBool true)))
    by (vm_compute; reflexivity).
  split; [exact H|].
  exact (proj2 (ResNext_sig_consistent _ _ _ _ _ _ _ _ H) eq_refl).
Defined.

(** ** Widths of the grouped convolutions *)

Lemma D_value_stage i bottleneck_width :
  binary64_exact (running_channels i) bottleneck_width ->
  D_value (running_channels i) bottleneck_width = bottleneck_width * 2 ^ Z.of_nat i.
Proof.
  intros Hexact. unfold D_value. rewrite compute_D_exact by done.
  unfold running_channels.
  replace (64 * 2 ^ Z.of_nat i * bottleneck_width)
    with (bottleneck_width * 2 ^ Z.of_nat i * 64) by lia.
  apply Z.div_mul. lia.
Qed.

Lemma elem_of_stage_of b in_channels channels cardinality num_layers stride last_gamma
    use_se group_width :
  b ∈ stage_of in_channels channels cardinality num_layers stride last_gamma use_se
               group_width ->
  b = Block_of in_channels channels cardinality stride true last_gamma use_se
               group_width \/
  b = Block_of (channels * 4) channels cardinality 1 false last_gamma use_se
               group_width.
Proof.
  unfold stage_of. intros [->|Hb]%elem_of_cons; [by left|].
  right. by apply elem_of_replicate_inv in Hb.
Qed.

(** X5.  In stage [i] every grouped convolution has [cardinality] groups of
    [bottleneck_width * 2^i] channels each, on both sides: the width per
    group doubles with every stage, without rounding. *)
Theorem stage_group_width layers cardinality bottleneck_width classes last_gamma use_se
    kwargs net i blocks b :
  ResNext_init layers cardinality bottleneck_width classes last_gamma use_se kwargs =
  Ok net ->
  binary64_exact (running_channels i) bottleneck_width ->
  stages net !! i = Some blocks ->
  b ∈ blocks ->
  let width := cardinality * (bottleneck_width * 2 ^ Z.of_nat i) in
  Block_grouped_conv b = Some (width, width, cardinality).
Proof.
  intros Hnet Hexact Hblocks Hb width.
  apply ResNext_init_Ok in Hnet as (_ & -> & _).
  rewrite stages_ResNext_of, list_lookup_imap in Hblocks.
  destruct (layers !! i) as [n|]; [|discriminate].
  cbn in Hblocks. injection Hblocks as <-.
  unfold stage_blocks_at in Hb. rewrite D_value_stage in Hb by done.
  apply elem_of_stage_of in Hb as [-> | ->]; reflexivity.
Qed.

Lemma stage_group_width_witness :
  ResNext_init [3; 4; 6; 3] 32 4 (VInt 1000) (VBool false) (VBool false) ∅ =
  Ok (ResNext_of [3; 4; 6; 3] 32 4 (VInt 1000) (VBool false) (VBool false)) /\
  binary64_exact (running_channels 2) 4 /\
  stages (ResNext_of [3; 4; 6; 3] 32 4 (VInt 1000) (VBool false) (VBool false)) !! 2%nat =
  Some (stage_of 512 256 32 6 2 false false 512) /\
  Block_of 1024 256 32 1 false false false 512 ∈ stage_of 512 256 32 6 2 false false 512 /\
  Block_grouped_conv (Block_of 1024 256 32 1 false false false 512) =
  Some (512, 512, 32).
Proof.
  assert (H : ResNext_init [3; 4; 6; 3] 32 4 (VInt 1000) (VBool false) (VBool false) ∅ =
              Ok (ResNext_of [3; 4; 6; 3] 32 4 (VInt 1000) (VBool false) (VBool false)))
    by (vm_compute; reflexivity).
  assert (He : binary64_exact (running_channels 2) 4)
    by (unfold binary64_exact; repeat split; reflexivity).
  assert (Hs : stages (ResNext_of [3; 4; 6; 3] 32 4 (VInt 1000) (VBool false)
                                  (VBool false)) !! 2%nat =
               Some (stage_of 512 256 32 6 2 false false 512))
    by (vm_compute; reflexivity).
  assert (Hb : Block_of 1024 256 32 1 false false false 512 ∈
               stage_of 512 256 32 6 2 false false 512)
    by (unfold stage_of; apply elem_of_cons; right; apply elem_of_replicate; split;
        [reflexivity | discriminate]).
  split; [exact H|]. split; [exact He|]. split; [exact Hs|]. split; [exact Hb|].
  exact (stage_group_width _ _ _ _ _ _ _ _ _ _ _ H He Hs Hb).
Defined.

(** ** Depth *)

Lemma Feature_depth_stage_of in_channels channels cardinality num_layers stride
    last_gamma use_se group_width :
  Feature_depth (Stage (stage_of in_channels channels cardinality num_layers stride
                                 last_gamma use_se group_width)) =
  (3 * stage_length num_layers)%nat.
Proof.
  unfold Feature_depth, stage_of, stage_length.
  rewrite fmap_cons, fmap_replicate. cbn [sum_list sum_list_with].
  change (sum_list_with id ?l) with (sum_list l).
  rewrite sum_list_replicate.
  change (weighted_layers (body (Block_of _ _ _ _ _ _ _ _))) with 3%nat.
  unfold id. lia.
Qed.

(** X6.  The depth of a network (its stem convolution, the three
    convolutions of every block's main path and the classifier) is
    [2 + 3 * (number of blocks)]; for the two presets it is the number the
    preset is named after. *)
Theorem preset_depth layers cardinality bottleneck_width classes last_gamma use_se
    kwargs net :
  ResNext_init layers cardinality bottleneck_width classes last_gamma use_se kwargs =
  Ok net ->
  ResNext_depth net =
  (2 + 3 * sum_list ((fun n => Z.to_nat (Z.max 1 n)) <$> layers))%nat /\
  (forall num_layers,
      dict_get resnext_spec num_layers = Some layers ->
      Z.of_nat (ResNext_depth net) = num_layers).
Proof.
  intros Hnet. apply ResNext_init_Ok in Hnet as (_ & -> & _).
  assert (Hdepth :
            ResNext_depth (ResNext_of layers cardinality bottleneck_width classes
                                      last_gamma use_se) =
            (2 + 3 * sum_list ((fun n => Z.to_nat (Z.max 1 n)) <$> layers))%nat).
  { unfold ResNext_depth, ResNext_of. cbn [features output].
    rewrite fmap_app, sum_list_with_app, fmap_imap.
    rewrite (imap_const_ext _ (fun n => (3 * stage_length n)%nat))
      by (intros i n; apply Feature_depth_stage_of).
    change (sum_list_with id (Feature_depth <$> stem 64)) with 1%nat.
    change (weighted_layers [Linear _ _]) with 1%nat.
    change (sum_list_with id ?l) with (sum_list l).
    assert (Hsum : forall l : list Z,
               sum_list ((fun n => (3 * stage_length n)%nat) <$> l) =
               (3 * sum_list ((fun n => Z.to_nat (Z.max 1 n)) <$> l))%nat).
    { induction l as [|n l IH]; [reflexivity|].
      rewrite !fmap_cons. cbn [sum_list sum_list_with].
      change (sum_list_with id ?l) with (sum_list l).
      rewrite IH. unfold stage_length, id. lia. }
    rewrite Hsum. unfold id. lia. }
  split; [exact Hdepth|].
  intros num_layers Hl. rewrite Hdepth.
  destruct (resnext_spec_presets _ _ Hl) as [[Hn | Hn] _]; subst num_layers;
    injection Hl as <-; reflexivity.
Qed.

Lemma preset_depth_witness :
  ResNext_init [3; 4; 23; 3] 64 4 (VInt 1000) (VBool false) (VBool true) ∅ =
  Ok (ResNext_of [3; 4; 23; 3] 64 4 (VInt 1000) (VBool false) (VBool true)) /\
  dict_get resnext_spec 101 = Some [3; 4; 23; 3] /\
  Z.of_nat (ResNext_depth
              (ResNext_of [3; 4; 23; 3] 64 4 (VInt 1000) (VBool false) (VBool true))) =
  101.
Proof.
  assert (H : ResNext_init [3; 4; 23; 3] 64 4 (VInt 1000) (VBool false) (VBool true) ∅ =
              Ok (ResNext_of [3; 4; 23; 3] 64 4 (VInt 1000) (VBool false) (VBool true)))
    by (vm_compute; reflexivity).
  split; [exact H|]. split; [reflexivity|].
  exact (proj2 (preset_depth _ _ _ _ _ _ _ _ H) 101 eq_refl).
Defined.

(** ** Independence of the two flags *)

Lemma ResNext_init_evaluated layers cardinality bottleneck_width classes last_gamma
    use_se :
  (forall i, (i < length layers)%nat ->
             exists d, compute_D (running_channels i) bottleneck_width = Ok d) ->
  ResNext_init layers cardinality bottleneck_width classes last_gamma use_se ∅ =
  Ok (ResNext_of layers cardinality bottleneck_width classes last_gamma use_se).
Proof.
  intros HD.
  destruct (loop_from_success cardinality bottleneck_width last_gamma use_se layers 0
              {| loop_features := stem 64;
                 loop_in_channels := 64;
                 loop_channels := 64 |}) as [st Hst]; [reflexivity|exact HD|].
  assert (Hinit : exists net,
             ResNext_init layers cardinality bottleneck_width classes last_gamma
                          use_se ∅ = Ok net).
  { unfold ResNext_init, Module_init, enumerate.
    rewrite decide_True by done. cbn [mbind result_bind].
    rewrite Hst. eexists. reflexivity. }
  destruct Hinit as [net Hnet]. rewrite Hnet.
  apply ResNext_init_Ok in Hnet as (_ & -> & _). reflexivity.
Qed.

(** Networks built from the same arguments but for the two flags. *)
Lemma ResNext_init_other_flags layers cardinality bottleneck_width classes last_gamma
    use_se last_gamma' use_se' kwargs net :
  ResNext_init layers cardinality bottleneck_width classes last_gamma use_se kwargs =
  Ok net ->
  kwargs = ∅ /\
  net = ResNext_of layers cardinality bottleneck_width classes last_gamma use_se /\
  ResNext_init layers cardinality bottleneck_width classes last_gamma' use_se' kwargs =
  Ok (ResNext_of layers cardinality bottleneck_width classes last_gamma' use_se').
Proof.
  intros Hnet. apply ResNext_init_Ok in Hnet as (-> & -> & HD).
  split; [reflexivity|]. split; [reflexivity|].
  apply ResNext_init_evaluated. intros i Hi. eexists. by apply HD.
Qed.

Lemma ResNext_of_map (g : Block -> Block) (G : Feature -> Feature)
    layers cardinality bottleneck_width classes last_gamma use_se last_gamma' use_se' :
  (forall l, G (Prim l) = Prim l) ->
  (forall blocks, G (Stage blocks) = Stage (g <$> blocks)) ->
  (forall in_channels channels stride downsample group_width,
      g (Block_of in_channels channels cardinality stride downsample
                  (truthy last_gamma) (truthy use_se) group_width) =
      Block_of in_channels channels cardinality stride downsample
               (truthy last_gamma') (truthy use_se') group_width) ->
  G <$> features (ResNext_of layers cardinality bottleneck_width classes last_gamma
                             use_se) =
  features (ResNext_of layers cardinality bottleneck_width classes last_gamma' use_se').
Proof.
  intros HPrim HStage Hg. unfold ResNext_of. cbn [features].
  rewrite fmap_app, fmap_imap. f_equal.
  - cbn. by rewrite !HPrim.
  - apply imap_ext. intros i n _. rewrite HStage. f_equal.
    unfold stage_blocks_at, stage_of. by rewrite fmap_cons, fmap_replicate, !Hg.
Qed.

(** X7.  [use_se] decides the gate and nothing else: the network built with
    it is, once the gates are removed, the network built with
    [use_se = False] from the same arguments, which the constructor returns
    as well. *)
Theorem use_se_only_adds_gates layers cardinality bottleneck_width classes last_gamma
    use_se kwargs net :
  ResNext_init layers cardinality bottleneck_width classes last_gamma use_se kwargs =
  Ok net ->
  ResNext_init layers cardinality bottleneck_width classes last_gamma (VBool false)
               kwargs =
  Ok (ResNext_without_se net).
Proof.
  intros Hnet.
  apply (ResNext_init_other_flags _ _ _ _ _ _ last_gamma (VBool false)) in Hnet
    as (-> & -> & ->).
  f_equal. unfold ResNext_without_se.
  rewrite (ResNext_of_map Block_without_se Feature_without_se _ _ _ _ _ _
             last_gamma (VBool false)); [reflexivity|done|done|].
  intros. by destruct (truthy use_se).
Qed.

Lemma use_se_only_adds_gates_witness :
  ResNext_init [3; 4; 6; 3] 32 4 (VInt 1000) (VBool false) (VBool true) ∅ =
  Ok (ResNext_of [3; 4; 6; 3] 32 4 (VInt 1000) (VBool false) (VBool true)) /\
  ResNext_init [3; 4; 6; 3] 32 4 (VInt 1000) (VBool false) (VBool false) ∅ =
  Ok (ResNext_without_se
        (ResNext_of [3; 4; 6; 3] 32 4 (VInt 1000) (VBool false) (VBool true))).
Proof.
  assert (H : ResNext_init [3; 4; 6; 3] 32 4 (VInt 1000) (VBool false) (VBool true) ∅ =
              Ok (ResNext_of [3; 4; 6; 3] 32 4 (VInt 1000) (VBool false) (VBool true)))
    by (vm_compute; reflexivity).
  split; [exact H|].
  exact (use_se_only_adds_gates _ _ _ _ _ _ _ _ H).
Defined.

(** X8.  [last_gamma] decides the scale of the last normalization of the
    main paths and nothing else: with those scales reset, the network is the
    one built with [last_gamma = False] from the same arguments. *)
Theorem last_gamma_only_sets_scale layers cardinality bottleneck_width classes
    last_gamma use_se kwargs net :
  ResNext_init layers cardinality bottleneck_width classes last_gamma use_se kwargs =
  Ok net ->
  ResNext_init layers cardinality bottleneck_width classes (VBool false) use_se
               kwargs =
  Ok (ResNext_default_gamma net).
Proof.
  intros Hnet.
  apply (ResNext_init_other_flags _ _ _ _ _ _ (VBool false) use_se) in Hnet
    as (-> & -> & ->).
  f_equal. unfold ResNext_default_gamma.
  rewrite (ResNext_of_map Block_default_gamma Feature_default_gamma _ _ _ _ _ _
             (VBool false) use_se); [reflexivity|done|done|].
  intros. by destruct (truthy last_gamma).
Qed.

Lemma last_gamma_only_sets_scale_witness :
  ResNext_init [3; 4; 6; 3] 32 4 (VInt 1000) (VBool true) (VBool false) ∅ =
  Ok (ResNext_of [3; 4; 6; 3] 32 4 (VInt 1000) (VBool true) (VBool false)) /\
  ResNext_init [3; 4; 6; 3] 32 4 (VInt 1000) (VBool false) (VBool false) ∅ =
  Ok (ResNext_default_gamma
        (ResNext_of [3; 4; 6; 3] 32 4 (VInt 1000) (VBool true) (VBool false))).
Proof.
  assert (H : ResNext_init [3; 4; 6; 3] 32 4 (VInt 1000) (VBool true) (VBool false) ∅ =
              Ok (ResNext_of [3; 4; 6; 3] 32 4 (VInt 1000) (VBool true) (VBool false)))
    by (vm_compute; reflexivity).
  split; [exact H|].
  exact (last_gamma_only_sets_scale _ _ _ _ _ _ _ _ H).
Defined.

(** ** Calls of the constructors *)

Section ConstructorCalls.

Variable state_dict : Type.
Variable torch_load : pyval -> result state_dict.
Variable load_state_dict : ResNext -> state_dict -> result ResNext.
Variable attach_ImageNetAttr : ResNext -> result ResNext.

Local Abbreviation get_resnext' :=
  (get_resnext state_dict torch_load load_state_dict attach_ImageNetAttr).
Local Abbreviation get_resnext_call' :=
  (get_resnext_call state_dict torch_load load_state_dict attach_ImageNetAttr).
Local Abbreviation constructors :=
  (named_constructors state_dict torch_load load_state_dict attach_ImageNetAttr).

Lemma named_constructor_call ctor :
  ctor ∈ constructors ->
  exists num_layers cardinality flag,
    (num_layers = 50 \/ num_layers = 101) /\
    (cardinality = 32 \/ cardinality = 64) /\
    forall kwargs,
      ctor kwargs =
      get_resnext_call' num_layers cardinality 4 (<["use_se" := VBool flag]> kwargs).
Proof.
  unfold named_constructors. rewrite !elem_of_cons, elem_of_nil.
  intros [-> | [-> | [-> | [-> | [-> | [-> | []]]]]]];
    [exists 50, 32, false | exists 101, 32, false | exists 101, 64, false
    |exists 50, 32, true | exists 101, 32, true | exists 101, 64, true];
    (split; [lia|]); (split; [lia|]); reflexivity.
Qed.

Lemma not_constructor_keyword k :
  k ∉ constructor_keywords ->
  k <> "use_se" /\ k <> "pretrained" /\ k <> "classes" /\ k <> "last_gamma".
Proof.
  unfold constructor_keywords.
  rewrite !not_elem_of_union, !not_elem_of_singleton. tauto.
Qed.

(** X9.  A named constructor takes four keywords only: any other one makes
    it raise [TypeError], among them [cardinality] and [bottleneck_width],
    which the constructor passes itself. *)
Theorem named_constructor_keywords ctor (kwargs : gmap string pyval) k :
  ctor ∈ constructors ->
  is_Some (kwargs !! k) ->
  k ∉ constructor_keywords ->
  ctor kwargs = Raise TypeError.
Proof.
  intros Hctor Hk Hnot.
  apply named_constructor_call in Hctor
    as (num_layers & cardinality & flag & Hn & _ & ->).
  apply not_constructor_keyword in Hnot as (Huse & Hpre & Hcls & Hlg).
  rewrite get_resnext_call_forced.
  destruct (rebinds _ kwargs); [reflexivity|].
  assert (Hl : exists layers, dict_get resnext_spec num_layers = Some layers).
  { destruct Hn as [-> | ->]; eexists; reflexivity. }
  destruct Hl as [layers Hl].
  unfold get_resnext, dict_contains. rewrite Hl. cbn [negb].
  unfold ResNext_call. destruct (rebinds _ _); [reflexivity|].
  unfold ResNext_init, Module_init. rewrite decide_False; [reflexivity|].
  intros Hempty.
  assert (Hlook : delete "classes"
                    (delete "last_gamma"
                       (delete "use_se" (delete "pretrained" kwargs))) !! k =
                  kwargs !! k)
    by (by rewrite !lookup_delete_ne).
  rewrite Hempty, lookup_empty in Hlook. rewrite <- Hlook in Hk.
  by destruct Hk.
Qed.

(** X10.  Without pretrained weights [get_resnext] does not use its
    collaborators: its result is the same whatever [torch.load],
    [load_state_dict] and the label registry would do. *)
Theorem get_resnext_without_pretrained
    (state_dict' : Type) (torch_load' : pyval -> result state_dict')
    (load_state_dict' : ResNext -> state_dict' -> result ResNext)
    (attach_ImageNetAttr' : ResNext -> result ResNext)
    num_layers cardinality bottleneck_width use_se pretrained kwargs :
  truthy pretrained = false ->
  get_resnext' num_layers cardinality bottleneck_width use_se pretrained kwargs =
  get_resnext state_dict' torch_load' load_state_dict' attach_ImageNetAttr'
              num_layers cardinality bottleneck_width use_se pretrained kwargs.
Proof.
  intros Hp. unfold get_resnext. rewrite Hp. reflexivity.
Qed.

(** X11.  With pretrained weights requested and a depth of the table, the
    network is built before anything is loaded: an exception of the
    construction is the result whatever the collaborators do, and after a
    successful construction an exception of [torch.load] or of
    [load_state_dict] is the result: no network is returned. *)
Theorem get_resnext_error_order num_layers layers cardinality bottleneck_width use_se
    pretrained kwargs :
  dict_get resnext_spec num_layers = Some layers ->
  truthy pretrained = true ->
  (forall e,
      ResNext_call layers cardinality bottleneck_width use_se kwargs = Raise e ->
      get_resnext' num_layers cardinality bottleneck_width use_se pretrained kwargs =
      Raise e) /\
  (forall net e,
      ResNext_call layers cardinality bottleneck_width use_se kwargs = Ok net ->
      torch_load pretrained = Raise e ->
      get_resnext' num_layers cardinality bottleneck_width use_se pretrained kwargs =
      Raise e) /\
  (forall net sd e,
      ResNext_call layers cardinality bottleneck_width use_se kwargs = Ok net ->
      torch_load pretrained = Ok sd ->
      load_state_dict net sd = Raise e ->
      get_resnext' num_layers cardinality bottleneck_width use_se pretrained kwargs =
      Raise e).
Proof.
  intros Hl Hp. unfold get_resnext, dict_contains. rewrite Hl. cbn [negb].
  split; [|split].
  - intros e ->. reflexivity.
  - intros net e -> Hload. cbn [mbind result_bind]. by rewrite Hp, Hload.
  - intros net sd e -> Hload Hstate. cbn [mbind result_bind].
    rewrite Hp, Hload. cbn [mbind result_bind]. by rewrite Hstate.
Qed.

End ConstructorCalls.

Lemma named_constructor_keywords_witness :
  (resnext50_32x4d unit (fun _ => Ok tt) (fun net _ => Ok net) (fun net => Ok net) ∈
   named_constructors unit (fun _ => Ok tt) (fun net _ => Ok net) (fun net => Ok net)) /\
  is_Some (({["cardinality" := VInt 64]} : gmap string pyval) !! "cardinality") /\
  ("cardinality" ∉ constructor_keywords) /\
  resnext50_32x4d unit (fun _ => Ok tt) (fun net _ => Ok net) (fun net => Ok net)
                  {["cardinality" := VInt 64]} = Raise TypeError.
Proof.
  assert (Hc : resnext50_32x4d unit (fun _ => Ok tt) (fun net _ => Ok net)
                               (fun net => Ok net) ∈
               named_constructors unit (fun _ => Ok tt) (fun net _ => Ok net)
                                  (fun net => Ok net))
    by (unfold named_constructors; apply elem_of_cons; left; reflexivity).
  assert (Hk : is_Some (({["cardinality" := VInt 64]} : gmap string pyval)
                          !! "cardinality"))
    by (eexists; reflexivity).
  assert (Hn : "cardinality" ∉ constructor_keywords)
    by (unfold constructor_keywords;
        rewrite !not_elem_of_union, !not_elem_of_singleton;
        repeat split; discriminate).
  split; [exact Hc|]. split; [exact Hk|]. split; [exact Hn|].
  exact (named_constructor_keywords _ _ _ _ _ _ _ Hc Hk Hn).
Defined.

Lemma get_resnext_without_pretrained_witness :
  truthy VNone = false /\
  get_resnext unit (fun _ => Ok tt) (fun net _ => Ok net) (fun net => Ok net)
              50 32 4 (VBool false) VNone ∅ =
  get_resnext bool (fun _ => Raise (External "no such file"))
              (fun _ _ => Raise (External "size mismatch"))
              (fun _ => Raise (External "no registry"))
              50 32 4 (VBool false) VNone ∅.
Proof.
  split; [reflexivity|].
  exact (get_resnext_without_pretrained unit (fun _ => Ok tt) (fun net _ => Ok net)
           (fun net => Ok net) bool (fun _ => Raise (External "no such file"))
           (fun _ _ => Raise (External "size mismatch"))
           (fun _ => Raise (External "no registry"))
           50 32 4 (VBool false) VNone ∅ eq_refl).
Defined.

Lemma get_resnext_error_order_witness :
  dict_get resnext_spec 50 = Some [3; 4; 6; 3] /\
  truthy (VStr "resnext50.pth") = true /\
  ResNext_call [3; 4; 6; 3] 32 4 (VBool false) ∅ =
  Ok (ResNext_of [3; 4; 6; 3] 32 4 (VInt 1000) (VBool false) (VBool false)) /\
  get_resnext unit (fun _ => Ok tt) (fun _ _ => Raise (External "size mismatch"))
              (fun net => Ok net)
              50 32 4 (VBool false) (VStr "resnext50.pth") ∅ =
  Raise (External "size mismatch").
Proof.
  assert (Hcall : ResNext_call [3; 4; 6; 3] 32 4 (VBool false) ∅ =
                  Ok (ResNext_of [3; 4; 6; 3] 32 4 (VInt 1000) (VBool false)
                                 (VBool false)))
    by (vm_compute; reflexivity).
  split; [reflexivity|]. split; [reflexivity|]. split; [exact Hcall|].
  exact (proj2 (proj2 (get_resnext_error_order unit (fun _ => Ok tt)
                         (fun _ _ => Raise (External "size mismatch"))
                         (fun net => Ok net)
                         50 [3; 4; 6; 3] 32 4 (VBool false) (VStr "resnext50.pth") ∅
                         eq_refl eq_refl))
           _ tt _ Hcall eq_refl eq_refl).
Defined.

(** ** Forward passes *)

Section ForwardProperties.

Variable Tensor : Type.
Variable layer_forward : Layer -> Tensor -> Tensor.
Variable adaptive_avg_pool2d : Tensor -> Z -> Tensor.
Variable squeeze_ : Tensor -> Z -> Tensor.
Variable mul add : Tensor -> Tensor -> Tensor.
Variable relu_ : Tensor -> Tensor.

Local Abbreviation forward :=
  (Block_forward Tensor layer_forward adaptive_avg_pool2d mul add relu_).
Local Abbreviation stage_forward :=
  (Stage_forward Tensor layer_forward adaptive_avg_pool2d mul add relu_).
Local Abbreviation feature_forward :=
  (Feature_forward Tensor layer_forward adaptive_avg_pool2d mul add relu_).
Local Abbreviation net_forward :=
  (ResNext_forward Tensor layer_forward adaptive_avg_pool2d squeeze_ mul add relu_).

(** X12.  When the last normalization of the main path, its scale zero,
    returns a zero tensor, and zero is absorbing for the product and neutral
    for the sum, a block built with a true [last_gamma] computes the
    activation of its shortcut alone: of its input, when it has no
    downsample path. *)
Theorem zero_gamma_block (is_zero : Tensor -> Prop)
    in_channels channels cardinality bottleneck_width stride downsample last_gamma
    use_se b (x : Tensor) :
  Block_init in_channels channels cardinality bottleneck_width stride
             downsample last_gamma use_se = Ok b ->
  truthy last_gamma = true ->
  (forall n t, is_zero (layer_forward (BatchNorm2d n Zeros) t)) ->
  (forall t w, is_zero t -> is_zero (mul t w)) ->
  (forall t r, is_zero t -> add t r = r) ->
  forward b x =
  relu_ (if truthy downsample
         then layer_forward (BatchNorm2d (channels * 4) FrameworkDefault)
                (layer_forward (Conv2d in_channels (channels * 4) 1 stride 0 1 false) x)
         else x) /\
  (truthy downsample = false -> forward b x = relu_ x).
Proof.
  intros Hb Hlg Hnorm Hmul Hadd.
  apply Block_init_Ok in Hb. rewrite Hlg in Hb. subst b.
  assert (Hmain : is_zero (main_path Tensor layer_forward
                             (Block_of in_channels channels cardinality stride
                                (truthy downsample) true (truthy use_se)
                                (cardinality *
                                 D_value channels bottleneck_width)) x))
    by apply Hnorm.
  assert (Hforward :
            forward (Block_of in_channels channels cardinality stride
                       (truthy downsample) true (truthy use_se)
                       (cardinality * D_value channels bottleneck_width)) x =
            relu_ (if truthy downsample
                   then layer_forward (BatchNorm2d (channels * 4) FrameworkDefault)
                          (layer_forward
                             (Conv2d in_channels (channels * 4) 1 stride 0 1 false) x)
                   else x)).
  { unfold Block_forward. fold (main_path Tensor layer_forward).
    set (y := main_path Tensor layer_forward _ x) in *.
    destruct (truthy use_se), (truthy downsample); cbn -[main_path];
      rewrite Hadd; auto. }
  split; [exact Hforward|].
  intros Hds. rewrite Hforward, Hds. reflexivity.
Qed.

Lemma Stage_forward_app (bs1 bs2 : list Block) (x : Tensor) :
  stage_forward (bs1 ++ bs2) x = stage_forward bs2 (stage_forward bs1 x).
Proof. apply foldl_app. Qed.

Lemma features_forward_stages (g : nat -> Z -> list Block) (l : list Z) :
  forall x : Tensor,
    foldl (fun x f => feature_forward f x) x (imap (fun i n => Stage (g i n)) l) =
    stage_forward (concat (imap g l)) x.
Proof.
  revert g. induction l as [|n l IH]; intros g x; [reflexivity|].
  cbn [imap foldl concat Feature_forward]. rewrite Stage_forward_app.
  apply (IH (g ∘ S)).
Qed.

(** X13.  The forward pass of a network applies the four stem layers, then
    all blocks of all stages one after the other, then the pooling to 1x1,
    the two squeezes and the classifier. *)
Theorem ResNext_forward_blocks layers cardinality bottleneck_width classes last_gamma
    use_se kwargs net (x : Tensor) :
  ResNext_init layers cardinality bottleneck_width classes last_gamma use_se kwargs =
  Ok net ->
  let stem_out :=
    layer_forward (MaxPool2d 3 2 1)
      (layer_forward (ReLU true)
         (layer_forward (BatchNorm2d 64 FrameworkDefault)
            (layer_forward (Conv2d 3 64 7 2 3 1 false) x))) in
  let features_out := stage_forward (concat (stages net)) stem_out in
  net_forward net x =
  layer_forward (output net)
    (squeeze_ (squeeze_ (adaptive_avg_pool2d features_out 1) 3) 2).
Proof.
  intros Hnet stem_out features_out.
  apply ResNext_init_Ok in Hnet as (_ & -> & _).
  unfold ResNext_forward, features_out. rewrite stages_ResNext_of.
  unfold ResNext_of. cbn [features output].
  rewrite foldl_app, features_forward_stages. reflexivity.
Qed.

End ForwardProperties.

Lemma zero_gamma_block_witness :
  Block_init 256 64 32 4 1 (VBool false) (VBool true) (VBool true) =
  Ok (Block_of 256 64 32 1 false true true 128) /\
  truthy (VBool true) = true /\
  Block_forward Z
    (fun l x => match l with
                | BatchNorm2d _ Zeros => 0
                | ReLU _ => Z.max 0 x
                | _ => x
                end)
    (fun x _ => x) Z.mul Z.add (Z.max 0)
    (Block_of 256 64 32 1 false true true 128) 7 =
  7.
Proof.
  assert (H : Block_init 256 64 32 4 1 (VBool false) (VBool true) (VBool true) =
              Ok (Block_of 256 64 32 1 false true true 128))
    by (vm_compute; reflexivity).
  split; [exact H|]. split; [reflexivity|].
  exact (proj1 (zero_gamma_block Z
                  (fun l x => match l with
                              | BatchNorm2d _ Zeros => 0
                              | ReLU _ => Z.max 0 x
                              | _ => x
                              end)
                  (fun x _ => x) Z.mul Z.add (Z.max 0) (fun t => t = 0)
                  256 64 32 4 1 (VBool false) (VBool true) (VBool true) _ 7
                  H eq_refl
                  (fun _ _ => eq_refl)
                  (fun t w Ht =>
                     eq_ind_r (fun t => t * w = 0) (eq_refl : 0 * w = 0) Ht)
                  (fun t r Ht =>
                     eq_ind_r (fun t => t + r = r) (eq_refl : 0 + r = r) Ht))).
Defined.

Lemma ResNext_forward_blocks_witness :
  ResNext_init [1; 1] 32 4 (VInt 10) (VBool false) (VBool false) ∅ =
  Ok (ResNext_of [1; 1] 32 4 (VInt 10) (VBool false) (VBool false)) /\
  ResNext_forward Z
    (fun l x => match l with ReLU _ => Z.max 0 x | _ => x end)
    (fun x _ => x) (fun x _ => x) Z.mul Z.add (Z.max 0)
    (ResNext_of [1; 1] 32 4 (VInt 10) (VBool false) (VBool false)) 3 =
  12.
Proof.
  assert (H : ResNext_init [1; 1] 32 4 (VInt 10) (VBool false) (VBool false) ∅ =
              Ok (ResNext_of [1; 1] 32 4 (VInt 10) (VBool false) (VBool false)))
    by (vm_compute; reflexivity).
  split; [exact H|].
  exact (ResNext_forward_blocks Z
           (fun l x => match l with ReLU _ => Z.max 0 x | _ => x end)
           (fun x _ => x) (fun x _ => x) Z.mul Z.add (Z.max 0)
           _ _ _ _ _ _ _ _ 3 H).
Defined.

(** ** Narrow blocks *)

(** X14.  Wherever the binary64 evaluation is exact, the width per group
    [D] that [Block.__init__] computes is 0 when
    [channels * bottleneck_width] stays below 64, and at least 1 when
    [channels >= 64] and [bottleneck_width] is positive, as in every stage
    of a network; the grouped convolution of a returned block maps
    [cardinality * D] channels to [cardinality * D] channels in
    [cardinality] groups. *)
Theorem Block_width_floor in_channels channels cardinality bottleneck_width stride
    downsample last_gamma use_se :
  binary64_exact channels bottleneck_width ->
  exists width,
    compute_D channels bottleneck_width = Ok width /\
    (0 <= channels * bottleneck_width < 64 -> width = 0) /\
    (64 <= channels -> 0 < bottleneck_width -> 1 <= width) /\
    (forall b,
        Block_init in_channels channels cardinality bottleneck_width stride
                   downsample last_gamma use_se = Ok b ->
        Block_grouped_conv b =
        Some (cardinality * width, cardinality * width, cardinality)).
Proof.
  intros Hexact. exists (channels * bottleneck_width / 64).
  split; [by apply compute_D_exact|]. split; [|split].
  - intros Hsmall. by apply Z.div_small.
  - intros Hch Hbw. apply Z.div_le_lower_bound; nia.
  - intros b. rewrite Block_init_eq, compute_D_exact by done.
    cbn [mbind result_bind mret result_ret]. by intros [= <-].
Qed.

Lemma Block_width_floor_witness :
  binary64_exact 64 4 /\
  Block_init 64 64 32 4 1 (VBool true) (VBool false) (VBool false) =
  Ok (Block_of 64 64 32 1 true false false 128) /\
  exists width,
    compute_D 64 4 = Ok width /\
    1 <= width /\
    Block_grouped_conv (Block_of 64 64 32 1 true false false 128) =
    Some (32 * width, 32 * width, 32).
Proof.
  assert (Hexact : binary64_exact 64 4)
    by (unfold binary64_exact; repeat split; reflexivity).
  assert (Hb : Block_init 64 64 32 4 1 (VBool true) (VBool false) (VBool false) =
               Ok (Block_of 64 64 32 1 true false false 128))
    by (vm_compute; reflexivity).
  split; [exact Hexact|]. split; [exact Hb|].
  destruct (Block_width_floor 64 64 32 4 1 (VBool true) (VBool false) (VBool false)
              Hexact) as (width & HD & _ & Hwide & Hconv).
  exists width. split; [exact HD|]. split; [apply Hwide; lia|].
  exact (Hconv _ Hb).
Defined.

(** ** The constructors called without arguments *)

Section DefaultCalls.

Variable state_dict : Type.
Variable torch_load : pyval -> result state_dict.
Variable load_state_dict : ResNext -> state_dict -> result ResNext.
Variable attach_ImageNetAttr : ResNext -> result ResNext.

(** X15.  Called without arguments, as the module does when run as a
    script, each of the six named constructors returns a network for 1000
    classes that is consistent from a 3-channel input to 2048 channels at
    stride 32 and has the depth its name gives. *)
Theorem named_constructors_default ctor :
  ctor ∈ named_constructors state_dict torch_load load_state_dict attach_ImageNetAttr ->
  exists net,
    ctor ∅ = Ok net /\
    output net = Linear 2048 (VInt 1000) /\
    ResNext_sig net (3, 1) = Some (2048, 32) /\
    (ResNext_depth net = 50%nat \/ ResNext_depth net = 101%nat) /\
    (cardinality net = 32 \/ cardinality net = 64) /\
    bottleneck_width net = 4.
Proof.
  unfold named_constructors. rewrite !elem_of_cons, elem_of_nil.
  intros [-> | [-> | [-> | [-> | [-> | [-> | []]]]]]];
    eexists; (split; [vm_compute; reflexivity|]);
    vm_compute; repeat split; auto.
Qed.

End DefaultCalls.

Lemma named_constructors_default_witness :
  (se_resnext101_64x4d unit (fun _ => Ok tt) (fun net _ => Ok net) (fun net => Ok net) ∈
   named_constructors unit (fun _ => Ok tt) (fun net _ => Ok net) (fun net => Ok net)) /\
  exists net,
    se_resnext101_64x4d unit (fun _ => Ok tt) (fun net _ => Ok net) (fun net => Ok net) ∅ =
    Ok net /\
    output net = Linear 2048 (VInt 1000) /\
    ResNext_sig net (3, 1) = Some (2048, 32) /\
    (ResNext_depth net = 50%nat \/ ResNext_depth net = 101%nat) /\
    (cardinality net = 32 \/ cardinality net = 64) /\
    bottleneck_width net = 4.
Proof.
  assert (Hc : se_resnext101_64x4d unit (fun _ => Ok tt) (fun net _ => Ok net)
                                   (fun net => Ok net) ∈
               named_constructors unit (fun _ => Ok tt) (fun net _ => Ok net)
                                  (fun net => Ok net))
    by (unfold named_constructors; do 5 (apply elem_of_cons; right);
        apply elem_of_cons; left; reflexivity).
  split; [exact Hc|].
  exact (named_constructors_default _ _ _ _ _ Hc).
Defined.
